(** * autoCommitProject: change reader and diff compressor

    A shallow embedding of [git_analyzer.py] (the change reader), of the
    [DiffCompressor] and [CodeReviewer.review] parts of [code_reviewer.py],
    and of the file-selection step of [auto_commit.py], with the
    properties the specification states about them.

    Further modules embed the prompt builder of the commit message
    providers ([commit_message_generator.py]) and the configuration
    lookup of [config_manager.py].

    Text.  A Python [str] is modelled by [string]; its characters are the
    8-bit [ascii] characters.  The inputs (paths, file contents, diff text)
    are read as ASCII text; the fixed Korean and symbol literals of the
    source stand in the definitions as their UTF-8 bytes.  [lower], [strip]
    and [splitlines] follow Python on the ASCII range.  The length of a
    report, which holds such literals, is taken with [Py.len], which
    counts characters and not bytes.

    Numbers.  Line counts are naturals: every count in the source is a
    [len(...)] or a counter started at zero. *)

From Stdlib Require Import String Ascii List Arith Bool Lia.
From Stdlib Require Import Permutation Sorted DecimalString.
Import ListNotations.
Open Scope list_scope.
Open Scope string_scope.

(** ** Python text operations *)

Module Py.

Definition nl : ascii := "010"%char.
Definition dquote : ascii := "034"%char.

(** [str(n)] for a non-negative integer, as used by the f-strings. *)
Definition str_of_nat (n : nat) : string :=
  NilEmpty.string_of_uint (Nat.to_uint n).

(** [c.lower()] on one character. *)
Definition lower_char (c : ascii) : ascii :=
  let n := nat_of_ascii c in
  if ((65 <=? n) && (n <=? 90))%nat then ascii_of_nat (n + 32) else c.

(** [s.lower()] *)
Fixpoint lower (s : string) : string :=
  match s with
  | EmptyString => EmptyString
  | String c s' => String (lower_char c) (lower s')
  end.

(** [c.isspace()]: tab, newline, vertical tab, form feed, carriage return,
    the four separators 0x1c to 0x1f, and the space. *)
Definition is_space (c : ascii) : bool :=
  let n := nat_of_ascii c in
  (((9 <=? n) && (n <=? 13)) || ((28 <=? n) && (n <=? 32)))%nat.

(** A byte that continues a character of a UTF-8 text: [10xxxxxx]. *)
Definition is_continuation (c : ascii) : bool :=
  let n := nat_of_ascii c in
  ((128 <=? n) && (n <? 192))%nat.

(** [len(s)] for a text that holds the non-ASCII literals of the source:
    the number of its characters, one for each byte that opens one. *)
Fixpoint len (s : string) : nat :=
  match s with
  | EmptyString => 0%nat
  | String c s' => ((if is_continuation c then 0 else 1) + len s')%nat
  end.

(** [s.lstrip()] *)
Fixpoint lstrip (s : string) : string :=
  match s with
  | EmptyString => EmptyString
  | String c s' => if is_space c then lstrip s' else s
  end.

(** [s.rstrip()] *)
Fixpoint rstrip (s : string) : string :=
  match s with
  | EmptyString => EmptyString
  | String c s' =>
      match rstrip s' with
      | EmptyString => if is_space c then EmptyString else String c EmptyString
      | r => String c r
      end
  end.

(** [s.strip()] *)
Definition strip (s : string) : string := rstrip (lstrip s).

(** [s.lstrip(c)] for a one-character argument. *)
Fixpoint lstrip_char (c : ascii) (s : string) : string :=
  match s with
  | EmptyString => EmptyString
  | String d s' => if Ascii.eqb d c then lstrip_char c s' else s
  end.

(** [s.startswith(p)] *)
Fixpoint startswith (p s : string) : bool :=
  match p with
  | EmptyString => true
  | String a p' =>
      match s with
      | EmptyString => false
      | String b s' => Ascii.eqb a b && startswith p' s'
      end
  end.

(** [p in s] *)
Fixpoint contains (p s : string) : bool :=
  startswith p s ||
  match s with
  | EmptyString => false
  | String _ s' => contains p s'
  end.

(** [s[:n]] *)
Fixpoint take (n : nat) (s : string) : string :=
  match n, s with
  | O, _ => EmptyString
  | S _, EmptyString => EmptyString
  | S n', String c s' => String c (take n' s')
  end.

(** [s[n:]] *)
Fixpoint drop (n : nat) (s : string) : string :=
  match n, s with
  | O, _ => s
  | S _, EmptyString => EmptyString
  | S n', String _ s' => drop n' s'
  end.

(** [s.split(sep)] for a one-character separator: never the empty list. *)
Fixpoint split (sep : ascii) (s : string) : list string :=
  match s with
  | EmptyString => [EmptyString]
  | String c s' =>
      if Ascii.eqb c sep then EmptyString :: split sep s'
      else match split sep s' with
           | [] => [String c EmptyString]
           | piece :: rest => String c piece :: rest
           end
  end.

(** [sep.join(parts)] for a one-character separator. *)
Fixpoint join (sep : ascii) (parts : list string) : string :=
  match parts with
  | [] => EmptyString
  | [x] => x
  | x :: rest => x ++ String sep (join sep rest)
  end.

(** Line boundaries of [s.splitlines()] on the ASCII range. *)
Definition is_linebreak (c : ascii) : bool :=
  let n := nat_of_ascii c in
  (((10 <=? n) && (n <=? 13)) || ((28 <=? n) && (n <=? 30)))%nat.

(** [s.splitlines()]: a carriage return followed by a newline is one
    boundary, and a final boundary opens no further line. *)
Fixpoint splitlines (s : string) : list string :=
  match s with
  | EmptyString => []
  | String c s' =>
      if is_linebreak c then
        match c, s' with
        | "013"%char, String "010"%char s'' => EmptyString :: splitlines s''
        | _, _ => EmptyString :: splitlines s'
        end
      else match splitlines s' with
           | [] => [String c EmptyString]
           | piece :: rest => String c piece :: rest
           end
  end.

(** [sum(f(x) for x in xs)]: a left fold from zero. *)
Definition sum {A : Type} (f : A -> nat) (xs : list A) : nat :=
  fold_left (fun acc x => (acc + f x)%nat) xs 0%nat.

(** [sorted(xs, key=key, reverse=True)]: stable, so that elements with
    equal keys keep their order. *)
Fixpoint insert_desc {A : Type} (key : A -> nat) (x : A) (xs : list A)
  : list A :=
  match xs with
  | [] => [x]
  | y :: xs' =>
      if (key y <=? key x)%nat then x :: xs else y :: insert_desc key x xs'
  end.

Fixpoint sorted_desc {A : Type} (key : A -> nat) (xs : list A) : list A :=
  match xs with
  | [] => []
  | x :: xs' => insert_desc key x (sorted_desc key xs')
  end.

End Py.

(** A Python [dict] with string keys: iteration follows insertion order,
    and assigning to a key that is present keeps its position. *)
Module Dict.
Section Ops.
Context {V : Type}.

Definition t : Type := list (string * V).

Definition empty : t := [].

(** [k in d] *)
Fixpoint mem (k : string) (d : t) : bool :=
  match d with
  | [] => false
  | (k', _) :: d' => (k' =? k) || mem k d'
  end.

(** [d[k]], [None] for a missing key. *)
Fixpoint get (k : string) (d : t) : option V :=
  match d with
  | [] => None
  | (k', v) :: d' => if k' =? k then Some v else get k d'
  end.

(** [d[k] = v] *)
Fixpoint set (k : string) (v : V) (d : t) : t :=
  match d with
  | [] => [(k, v)]
  | (k', v') :: d' =>
      if k' =? k then (k', v) :: d' else (k', v') :: set k v d'
  end.

(** [d.items()] *)
Definition items (d : t) : list (string * V) := d.

End Ops.
Arguments t : clear implicits.
End Dict.

(** ** Data model ([git_analyzer.py]) *)

(** [FileChange]: [change_type] is one of the texts A, M, D, R. *)
Record FileChange : Type := mkFileChange {
  path : string;
  change_type : string;
  insertions : nat;
  deletions : nat;
  diff : string
}.

(** [GitChanges] *)
Record GitChanges : Type := mkGitChanges {
  staged_files : list FileChange;
  unstaged_files : list FileChange;
  total_insertions : nat;
  total_deletions : nat;
  total_files : nat
}.

(** [ReviewLevel]: three text constants; a level is any text. *)
Module ReviewLevel.
Definition QUICK : string := "quick".
Definition NORMAL : string := "normal".
Definition DETAILED : string := "detailed".
End ReviewLevel.

(** ** The diff compressor ([code_reviewer.py]) *)

Module DiffCompressor.
Import Py.

Definition newline : string := String nl EmptyString.

Definition triple_dquote : string :=
  String dquote (String dquote (String dquote EmptyString)).

Definition skip_patterns : list string :=
  [ "import "; "from "; "#"; "//"; "/*"; "*/";
    "{"; "}"; "("; ")"; "["; "]"; ";";
    triple_dquote; "'''"; "pass"; "console.log" ].

Definition important_patterns : list string :=
  [ "def "; "class "; "function "; "return ";
    "if "; "else"; "for "; "while "; "try"; "catch";
    "="; "await "; "async "; "@" ].

(** [_is_important_line] *)
Definition _is_important_line (line : string) : bool :=
  if (line =? "") || (String.length line <? 3)%nat then false
  else
    let line_lower := strip (lower line) in
    if existsb (fun pattern =>
                  startswith pattern line_lower || (line_lower =? pattern))
               skip_patterns
    then false
    else existsb (fun pattern => contains pattern line) important_patterns.

(** [line.startswith('+') and not line.startswith('+++')] *)
Definition is_added_line (line : string) : bool :=
  startswith "+" line && negb (startswith "+++" line).

(** [line.startswith('-') and not line.startswith('---')] *)
Definition is_removed_line (line : string) : bool :=
  startswith "-" line && negb (startswith "---" line).

(** The loop of [_extract_key_changes], which leaves as soon as
    [key_lines] holds [limit] entries. *)
Fixpoint extract_key_loop (limit : nat) (lines key_lines : list string)
  : list string :=
  match lines with
  | [] => key_lines
  | line :: rest =>
      if is_added_line line then
        let clean := strip (drop 1 line) in
        if _is_important_line clean then
          let key_lines' :=
            (key_lines ++ [("+ " ++ take 100 clean)%string])%list in
          if (limit <=? List.length key_lines')%nat then key_lines'
          else extract_key_loop limit rest key_lines'
        else extract_key_loop limit rest key_lines
      else extract_key_loop limit rest key_lines
  end.

(** [_extract_key_changes] *)
Definition _extract_key_changes (diff : string) (limit : nat) : list string :=
  extract_key_loop limit (split nl diff) [].

Definition signature_keywords : list string :=
  [ "def "; "class "; "function "; "const "; "let "; "var ";
    "public "; "private "; "protected "; "async "; "@" ].

(** [_extract_signatures] *)
Fixpoint _extract_signatures (lines : list string) : list string :=
  match lines with
  | [] => []
  | line :: rest =>
      let clean := strip (lstrip_char "+" line) in
      if existsb (fun kw => contains kw clean) signature_keywords
         && (contains "(" clean || contains "class " clean)
      then take 120 clean :: _extract_signatures rest
      else _extract_signatures rest
  end.

(** One round of the loop over the diff lines of a modified or deleted
    file; the state is [(additions, deletions)]. *)
Definition scan_line (acc : list string * list string) (line : string)
  : list string * list string :=
  let '(additions, deletions) := acc in
  if is_added_line line then
    let clean_line := strip (drop 1 line) in
    if _is_important_line clean_line
    then ((additions ++ [("+ " ++ take 100 clean_line)%string])%list, deletions)
    else acc
  else if is_removed_line line then
    let clean_line := strip (drop 1 line) in
    if _is_important_line clean_line
    then (additions, (deletions ++ [("- " ++ take 100 clean_line)%string])%list)
    else acc
  else acc.

Definition max_lines (level : string) : nat :=
  if level =? ReviewLevel.DETAILED then 20 else 10.

(** [_compress_diff_content] *)
Definition _compress_diff_content (diff level change_type : string)
  : string :=
  let lines := split nl diff in
  let result :=
    if change_type =? "A" then
      match _extract_signatures lines with
      | [] => _extract_key_changes diff 10
      | signatures =>
          "새로운 정의:"
          :: firstn (if level =? ReviewLevel.DETAILED then 15 else 8)
                    signatures
      end
    else
      let '(additions, deletions) := fold_left scan_line lines ([], []) in
      let result1 :=
        match deletions with
        | [] => []
        | _ => "제거됨:" :: firstn (max_lines level / 2) deletions
        end in
      match additions with
      | [] => result1
      | _ =>
          (result1
           ++ "추가됨:" :: firstn (max_lines level / 2) additions)%list
      end
  in
  join nl (firstn 30 result).

Definition low_priority_patterns : list string :=
  [ "test_"; "_test."; ".test.";
    "spec."; ".spec.";
    "config."; "setup."; "requirements.";
    ".md"; ".txt"; ".yml"; ".yaml"; ".json";
    "migration"; "__init__" ].

Definition high_priority_patterns : list string :=
  [ "service"; "controller"; "api"; "model";
    "handler"; "middleware"; "auth"; "security" ].

(** [_get_file_priority] *)
Definition _get_file_priority (path : string) : string :=
  let path_lower := lower path in
  if existsb (fun pattern => contains pattern path_lower)
             low_priority_patterns
  then "low"
  else if existsb (fun pattern => contains pattern path_lower)
                  high_priority_patterns
  then "high"
  else "normal".

(** The heading line of a file in smart mode. *)
Definition smart_header (change : FileChange) : string :=
  newline ++ "━━━ " ++ path change ++ " (" ++ change_type change ++ ") +"
  ++ str_of_nat (insertions change) ++ "/-"
  ++ str_of_nat (deletions change) ++ newline.

(** One round of the loop of [_compress_smart]. *)
Definition smart_step (level : string) (result : string)
  (change : FileChange) : string :=
  let priority := _get_file_priority (path change) in
  if (priority =? "low") && (level =? ReviewLevel.QUICK) then result
  else
    let result := result ++ smart_header change in
    if diff change =? "" then result
    else result
         ++ _compress_diff_content (diff change) level (change_type change)
         ++ newline.

(** [_compress_smart] *)
Definition _compress_smart (changes : list FileChange) (level : string)
  : string :=
  fold_left (smart_step level) changes "".

(** One round of the loop of [_compress_minimal]. *)
Definition minimal_step (result : string) (change : FileChange) : string :=
  let result :=
    result ++ newline ++ "• " ++ path change ++ " (" ++ change_type change
    ++ ") +" ++ str_of_nat (insertions change) ++ "/-"
    ++ str_of_nat (deletions change) ++ newline in
  match _extract_key_changes (diff change) 5 with
  | [] => result
  | key_changes =>
      fold_left (fun result line => result ++ "    " ++ line ++ newline)
                key_changes (result ++ "  핵심 변경:" ++ newline)
  end.

(** [_compress_minimal] *)
Definition _compress_minimal (changes : list FileChange) : string :=
  fold_left minimal_step changes ("📝 변경 파일:" ++ newline).

(** [change.path.split('.')[-1] if '.' in change.path else 'other'] *)
Definition extension (path : string) : string :=
  if contains "." path then last (split "." path) "" else "other".

(** The first loop of [_compress_summary]: files by extension. *)
Definition by_type_step (by_type : Dict.t (list FileChange))
  (change : FileChange) : Dict.t (list FileChange) :=
  let ext := extension (path change) in
  let by_type :=
    if Dict.mem ext by_type then by_type else Dict.set ext [] by_type in
  match Dict.get ext by_type with
  | Some files => Dict.set ext (files ++ [change])%list by_type
  | None => by_type
  end.

Definition group_by_type (changes : list FileChange)
  : Dict.t (list FileChange) :=
  fold_left by_type_step changes Dict.empty.

(** The key that orders the files of a group. *)
Definition change_size (f : FileChange) : nat := insertions f + deletions f.

Definition summary_file_line (f : FileChange) : string :=
  "  • " ++ path f ++ " (+" ++ str_of_nat (insertions f) ++ "/-"
  ++ str_of_nat (deletions f) ++ ")" ++ newline.

(** The line of an extension group. *)
Definition summary_group_line (ext : string) (count total_add total_del : nat)
  : string :=
  "📁 ." ++ ext ++ " 파일: " ++ str_of_nat count
  ++ "개 (+" ++ str_of_nat total_add ++ "/-" ++ str_of_nat total_del
  ++ ")" ++ newline.

(** One round of the second loop of [_compress_summary]. *)
Definition summary_step (summary : string)
  (item : string * list FileChange) : string :=
  let '(ext, files) := item in
  let total_add := sum insertions files in
  let total_del := sum deletions files in
  let summary :=
    summary
    ++ summary_group_line ext (List.length files) total_add total_del in
  let sorted_files := sorted_desc change_size files in
  fold_left (fun summary f => summary ++ summary_file_line f)
            (firstn 2 sorted_files) summary.

Definition summary_title : string :=
  "⚠️  대량 변경 감지 - 요약 리뷰" ++ newline ++ newline.

(** [_compress_summary] *)
Definition _compress_summary (changes : list FileChange) : string :=
  fold_left summary_step (Dict.items (group_by_type changes)) summary_title.

(** [compress] *)
Definition compress (changes : list FileChange) (level : string) : string :=
  let total_lines := sum (fun c => insertions c + deletions c)%nat changes in
  if (500 <? total_lines)%nat && negb (level =? ReviewLevel.DETAILED)
  then _compress_summary changes
  else if (200 <? total_lines)%nat && (level =? ReviewLevel.QUICK)
  then _compress_minimal changes
  else _compress_smart changes level.

End DiffCompressor.

(** ** The review entry point ([code_reviewer.py]) *)

Module CodeReviewer.

(** The dictionary [review] returns: the keys [compressed_diff] and
    [level] are absent from the answer for an empty change list. *)
Record ReviewResult : Type := mkReviewResult {
  review_text : string;
  compressed_diff : option string;
  token_estimate : nat;
  level_used : option string
}.

Inductive Raised : Type :=
| RuntimeError (message : string).

Section Review.

(** The configuration dictionary, handed on to the provider unread. *)
Variable Config : Type.

(** The provider's [review_code]; [inl e] is an exception with text [e]. *)
Variable review_code : string -> string -> Config -> string + string.

(** [CodeReviewer.review] *)
Definition review (changes : list FileChange) (config : Config)
  (level : string) : Raised + ReviewResult :=
  match changes with
  | [] =>
      inr (mkReviewResult "✅ 변경사항이 없습니다." None 0 None)
  | _ =>
      let compressed_diff := DiffCompressor.compress changes level in
      let token_estimate := (Py.len compressed_diff / 4)%nat in
      match review_code compressed_diff level config with
      | inr review_text =>
          inr (mkReviewResult review_text (Some compressed_diff)
                              token_estimate (Some level))
      | inl e => inl (RuntimeError ("코드 리뷰 실패: " ++ e))
      end
  end.

End Review.
End CodeReviewer.

(** ** The change reader ([git_analyzer.py]) *)

Module GitAnalyzer.
Import Py.

(** What reading a path of the working tree gives: the path is absent,
    the read raises, or the file's text. *)
Inductive FileRead : Type :=
| Missing
| Unreadable
| Content (content : string).

(** The opened repository, as far as the reader uses it.  A call of the
    version-control tool that raises gives [None]. *)
Record Repo : Type := mkRepo {
  git_status : option string;
  subprocess_status : option string;
  git_diff_cached : string -> option string;
  subprocess_diff : string -> option string;
  read_file : string -> FileRead;
  untracked_files : list string
}.

(** What [git.Repo(path, search_parent_directories=True)] does. *)
Inductive RepoOpen : Type :=
| Opened (repo : Repo)
| InvalidGitRepositoryError
| OtherGitError (message : string).

Inductive Raised : Type :=
| ValueError (message : string)
| GitError (message : string).

(** [repo_path or "."] *)
Definition path_or_dot (repo_path : option string) : string :=
  match repo_path with
  | None => "."
  | Some p => if p =? "" then "." else p
  end.

(** [GitAnalyzer.__init__] *)
Definition __init__ (git_Repo : string -> RepoOpen)
  (repo_path : option string) : Raised + Repo :=
  let repo_path := path_or_dot repo_path in
  match git_Repo repo_path with
  | Opened repo => inr repo
  | InvalidGitRepositoryError =>
      inl (ValueError ("'" ++ repo_path ++ "'는 유효한 Git 저장소가 아닙니다."))
  | OtherGitError message => inl (GitError message)
  end.

(** One round of the loop of [_count_changes]. *)
Definition count_step (acc : nat * nat) (line : string) : nat * nat :=
  let '(insertions, deletions) := acc in
  if startswith "+" line && negb (startswith "+++" line)
  then (insertions + 1, deletions)%nat
  else if startswith "-" line && negb (startswith "---" line)
  then (insertions, deletions + 1)%nat
  else acc.

(** [_count_changes] *)
Definition _count_changes (diff_text : string) : nat * nat :=
  fold_left count_step (split nl diff_text) (0, 0)%nat.

(** [[f'+{line}' for line in content.split('\n')]] joined by newlines. *)
Definition added_diff_text (content : string) : string :=
  join nl (map (fun line => "+" ++ line) (split nl content)).

(** The first loop of [get_staged_changes]: path to first status
    character, for the status characters A, M, D and R. *)
Definition staged_status_step (staged_files : Dict.t string)
  (line : string) : Dict.t string :=
  if (String.length line <? 4)%nat then staged_files
  else
    let status_code := take 2 line in
    let file_path := drop 3 line in
    let first_char := take 1 status_code in
    if existsb (String.eqb first_char) ["A"; "M"; "D"; "R"]
    then Dict.set file_path first_char staged_files
    else staged_files.

(** One round of the second loop of [get_staged_changes]; a raised
    exception leaves [changes] as it was. *)
Definition staged_file_step (repo : Repo) (changes : list FileChange)
  (item : string * string) : list FileChange :=
  let '(file_path, status) := item in
  if status =? "A" then
    match read_file repo file_path with
    | Content content =>
        (changes ++ [mkFileChange file_path "A"
                       (List.length (split nl content)) 0
                       (added_diff_text content)])%list
    | Missing | Unreadable => changes
    end
  else if (status =? "M") || (status =? "D") then
    match git_diff_cached repo file_path with
    | Some diff_output =>
        let '(insertions, deletions) := _count_changes diff_output in
        (changes ++ [mkFileChange file_path status insertions deletions
                       diff_output])%list
    | None => changes
    end
  else changes.

(** [get_staged_changes] *)
Definition get_staged_changes (repo : Repo) : list FileChange :=
  match git_status repo with
  | None => []
  | Some output =>
      let staged_files :=
        fold_left staged_status_step (split nl output) Dict.empty in
      fold_left (staged_file_step repo) (Dict.items staged_files) []
  end.

(** The first loop of [get_unstaged_changes]: status character and path,
    for the status characters M, D and A in the second column. *)
Definition unstaged_status_step (unstaged_files : list (string * string))
  (line : string) : list (string * string) :=
  if (String.length line <? 4)%nat then unstaged_files
  else
    let status_code := take 1 (drop 1 line) in
    let file_path := strip (drop 3 line) in
    if existsb (String.eqb status_code) ["M"; "D"; "A"]
       && negb (status_code =? " ")
    then (unstaged_files ++ [(status_code, file_path)])%list
    else unstaged_files.

(** One round of the second loop of [get_unstaged_changes]. *)
Definition unstaged_file_step (repo : Repo) (changes : list FileChange)
  (item : string * string) : list FileChange :=
  let '(status_code, file_path) := item in
  if (status_code =? "M") || (status_code =? "D") then
    match subprocess_diff repo file_path with
    | Some diff_text =>
        let '(insertions, deletions) := _count_changes diff_text in
        (changes ++ [mkFileChange file_path status_code insertions deletions
                       diff_text])%list
    | None => changes
    end
  else if status_code =? "A" then
    match read_file repo file_path with
    | Content content =>
        if content =? "" then changes
        else
          let diff_text := added_diff_text content in
          let insertions := List.length (split nl content) in
          (changes ++ [mkFileChange file_path "A" insertions 0
                         diff_text])%list
    | Missing | Unreadable => changes
    end
  else changes.

(** [get_unstaged_changes] *)
Definition get_unstaged_changes (repo : Repo) : list FileChange :=
  match subprocess_status repo with
  | None => []
  | Some stdout =>
      let unstaged_files :=
        fold_left unstaged_status_step (splitlines stdout) [] in
      fold_left (unstaged_file_step repo) unstaged_files []
  end.

(** [get_untracked_files] *)
Definition get_untracked_files (repo : Repo) : list string :=
  untracked_files repo.

(** One round of the loop of [get_all_changes] over the untracked
    paths. *)
Definition untracked_step (repo : Repo) (unstaged : list FileChange)
  (file_path : string) : list FileChange :=
  match read_file repo file_path with
  | Content content =>
      (unstaged ++ [mkFileChange file_path "A"
                      (List.length (split nl content)) 0 content])%list
  | Missing | Unreadable => unstaged
  end.

(** [get_all_changes] *)
Definition get_all_changes (repo : Repo) (include_untracked : bool)
  : GitChanges :=
  let staged := get_staged_changes repo in
  let unstaged := get_unstaged_changes repo in
  let unstaged :=
    if include_untracked
    then fold_left (untracked_step repo) (get_untracked_files repo) unstaged
    else unstaged in
  let all_files := (staged ++ unstaged)%list in
  let total_insertions := sum insertions all_files in
  let total_deletions := sum deletions all_files in
  mkGitChanges staged unstaged total_insertions total_deletions
               (List.length all_files).

End GitAnalyzer.

(** ** The orchestrator's use of the reader ([auto_commit.py]) *)

Module AutoCommit.

(** How the opening part of [main] ends: the process leaves with an exit
    code, or goes on with the changes. *)
Inductive Outcome : Type :=
| Exit (code : nat)
| Continue (changes : GitChanges).

(** [main], the restriction to [--files]: the two partitions are
    filtered and [total_files] is assigned anew. *)
Definition select_files (files : list string) (changes : GitChanges)
  : GitChanges :=
  let in_file_set (f : FileChange) := existsb (String.eqb (path f)) files in
  let staged := filter in_file_set (staged_files changes) in
  let unstaged := filter in_file_set (unstaged_files changes) in
  mkGitChanges staged unstaged
               (total_insertions changes) (total_deletions changes)
               (List.length staged + List.length unstaged).

(** [main] from the opening of the repository to the check for an empty
    change set.  [has_changes] is the reader's test of the same name,
    [files] the [--files] option ([[]] when it is not given).  An
    exception of [GitAnalyzer()] reaches the handler at the end of [main],
    which leaves with code 1. *)
Definition read_changes (git_Repo : string -> GitAnalyzer.RepoOpen)
  (has_changes : GitAnalyzer.Repo -> bool)
  (staged_only : bool) (files : list string) : Outcome :=
  match GitAnalyzer.__init__ git_Repo None with
  | inl _ => Exit 1
  | inr analyzer =>
      if negb (has_changes analyzer) then Exit 0
      else
        let changes :=
          GitAnalyzer.get_all_changes analyzer (negb staged_only) in
        let changes :=
          match files with
          | [] => changes
          | _ => select_files files changes
          end in
        if (total_files changes =? 0)%nat then Exit 0
        else Continue changes
  end.

End AutoCommit.

(** ** Notions used to state the properties *)

Module Notions.
Import Py DiffCompressor.

(** The compressed body a kept file adds below its heading in smart
    mode: nothing for an empty diff. *)
Definition smart_body (level : string) (c : FileChange) : string :=
  if diff c =? "" then ""
  else _compress_diff_content (diff c) level (change_type c) ++ newline.

(** [c in s] for one character. *)
Fixpoint mem_char (c : ascii) (s : string) : bool :=
  match s with
  | EmptyString => false
  | String d s' => Ascii.eqb d c || mem_char c s'
  end.

(** Every character of [s] is white space. *)
Fixpoint all_space (s : string) : bool :=
  match s with
  | EmptyString => true
  | String c s' => is_space c && all_space s'
  end.

(** The lines of a text, as [split] at line breaks gives them. *)
Definition lines_of (text : string) : list string := split nl text.

(** Of the lines [keep] selects, those that pass the importance filter,
    as they are shown: trimmed, cut at 100 characters, after [sign]. *)
Definition entries_of (sign : string) (keep : string -> bool)
  (lines : list string) : list string :=
  map (fun clean => sign ++ take 100 clean)
      (filter _is_important_line
         (map (fun line => strip (drop 1 line)) (filter keep lines))).

(** The removed lines of a diff that pass the importance filter. *)
Definition removed_entries (diff : string) : list string :=
  entries_of "- " is_removed_line (split nl diff).

(** The added lines of a diff that pass the importance filter. *)
Definition added_entries (diff : string) : list string :=
  entries_of "+ " is_added_line (split nl diff).

(** A group of entries below its label; nothing for an empty group. *)
Definition labelled (label : string) (entries : list string)
  : list string :=
  match entries with
  | [] => []
  | _ => label :: entries
  end.

(** The body lines of a modified or deleted file before the cut at 30:
    the removed group, then the added group, each capped. *)
Definition modified_body_lines (level diff : string) : list string :=
  (labelled "제거됨:" (firstn (max_lines level / 2) (removed_entries diff))
   ++ labelled "추가됨:" (firstn (max_lines level / 2) (added_entries diff)))
  %list.

(** The order of a list sorted by falling key: [b] may follow [a]. *)
Definition falls_by {A : Type} (key : A -> nat) (a b : A) : Prop :=
  key b <= key a.

(** The texts of a list, one after the other. *)
Definition concat_text (parts : list string) : string :=
  fold_right append "" parts.

(** [shown] holds the two largest files of [files], or all of them when
    there are fewer: no file left out is larger than a file shown. *)
Definition two_largest (files shown : list FileChange) : Prop :=
  List.length shown = Nat.min 2 (List.length files)
  /\ exists rest,
       Permutation files (shown ++ rest)
       /\ forall s r, In s shown -> In r rest ->
                      change_size r <= change_size s.

(** An extension group of the summary: its files and the files listed. *)
Record Group : Type := mkGroup {
  group_ext : string;
  group_files : list FileChange;
  group_shown : list FileChange
}.

(** The text of a group: the line of aggregate counts, then a line for
    each file listed. *)
Definition group_text (g : Group) : string :=
  summary_group_line (group_ext g) (List.length (group_files g))
    (list_sum (map insertions (group_files g)))
    (list_sum (map deletions (group_files g)))
  ++ concat_text (map summary_file_line (group_shown g)).

(** [report] is a summary-mode report of [changes]: below the title,
    one group for each extension that occurs, holding the files of that
    extension, with aggregate counts and at most the two largest files. *)
Definition summary_mode (changes : list FileChange) (report : string)
  : Prop :=
  exists groups : list Group,
    NoDup (map group_ext groups)
    /\ (forall c, In c changes ->
                  In (extension (path c)) (map group_ext groups))
    /\ (forall g, In g groups ->
          group_files g <> []
          /\ group_files g
             = filter (fun c => extension (path c) =? group_ext g) changes
          /\ List.length (group_shown g) <= 2
          /\ two_largest (group_files g) (group_shown g))
    /\ report = summary_title ++ concat_text (map group_text groups).

(** What the first loop of [_compress_summary] does to the dictionary
    for a file of extension [ext]. *)
Fixpoint add_to_group (ext : string) (c : FileChange)
  (d : Dict.t (list FileChange)) : Dict.t (list FileChange) :=
  match d with
  | [] => [(ext, [c])]
  | (k, v) :: d' =>
      if k =? ext then (k, (v ++ [c])%list) :: d'
      else (k, v) :: add_to_group ext c d'
  end.

(** What the dictionary holds after the files [seen]. *)
Definition grouped (seen : list FileChange)
  (d : Dict.t (list FileChange)) : Prop :=
  NoDup (map fst d)
  /\ (forall c, In c seen -> In (extension (path c)) (map fst d))
  /\ (forall k v, In (k, v) d ->
        v <> [] /\ v = filter (fun c => extension (path c) =? k) seen).

(** The group of a dictionary item, with the files the summary lists. *)
Definition group_of_item (item : string * list FileChange) : Group :=
  mkGroup (fst item) (snd item)
          (firstn 2 (sorted_desc change_size (snd item))).

(** The derived token estimate of a report. *)
Definition token_estimate_of (report : string) : nat :=
  (Py.len report / 4)%nat.

End Notions.
Import Notions.

(** ** Sample inputs *)

Module Samples.
Import Py DiffCompressor GitAnalyzer.

(** A file of a test suite and a file of a service, both modified. *)
Definition test_utils : FileChange :=
  mkFileChange "test_utils.py" "M" 1 0 "+value = 1".

Definition auth_service : FileChange :=
  mkFileChange "auth_service.py" "M" 1 1
    ("-token = old(user)" ++ newline ++ "+token = sign(user)").

(** A working tree where [a.py] and [b.py] are staged as modified. *)
Definition two_staged : Repo :=
  mkRepo (Some ("M  a.py" ++ newline ++ "M  b.py")) (Some "")
         (fun p =>
            if p =? "a.py"
            then Some ("+x = 1" ++ newline ++ "+y = 2" ++ newline
                       ++ "+z = 3" ++ newline ++ "+u = 4" ++ newline
                       ++ "+v = 5")
            else Some ("+a = 1" ++ newline ++ "+b = 2" ++ newline
                       ++ "+c = 3" ++ newline ++ "+d = 4" ++ newline
                       ++ "+e = 5" ++ newline ++ "+f = 6" ++ newline
                       ++ "+g = 7"))
         (fun _ => Some "") (fun _ => Missing) [].

(** Four changed files with 600 changed lines between them. *)
Definition large_change : list FileChange :=
  [ mkFileChange "core.py" "M" 150 50 "+total = 0";
    mkFileChange "README.md" "M" 40 10 "+text";
    mkFileChange "views.py" "M" 200 50 "-count = 1";
    mkFileChange "util.py" "M" 80 20 "+limit = 3" ].

(** The text of a file of ten lines, the last one without a line break
    after it. *)
Definition ten_lines : string :=
  join nl ["a = 1"; "b = 2"; "c = 3"; "d = 4"; "e = 5";
           "f = 6"; "g = 7"; "h = 8"; "i = 9"; "j = 10"].

(** A working tree whose only change is the new file [notes.py], known
    to the version-control tool under the status [status]. *)
Definition new_file_tree (staged_status raw_status : string)
  (untracked : list string) : Repo :=
  mkRepo (Some staged_status) (Some raw_status)
         (fun _ => Some "") (fun _ => Some "")
         (fun p => if p =? "notes.py" then Content ten_lines else Missing)
         untracked.

(** A directory opener that knows no repository. *)
Definition no_repository (p : string) : RepoOpen :=
  InvalidGitRepositoryError.

End Samples.

(** ** Further notions *)

Module MoreNotions.
Import Py DiffCompressor.

(** What one file adds to the text of the smart mode when it is kept. *)
Definition smart_segment (level : string) (c : FileChange) : string :=
  smart_header c ++ smart_body level c.

(** The heading line of a file in minimal mode. *)
Definition minimal_header (c : FileChange) : string :=
  newline ++ "• " ++ path c ++ " (" ++ change_type c ++ ") +"
  ++ str_of_nat (insertions c) ++ "/-" ++ str_of_nat (deletions c)
  ++ newline.

(** The block of key changes below a heading in minimal mode. *)
Definition minimal_block (key_changes : list string) : string :=
  match key_changes with
  | [] => ""
  | _ => "  핵심 변경:" ++ newline
         ++ concat_text (map (fun line => "    " ++ line ++ newline)
                             key_changes)
  end.

(** What one file adds to the text of the minimal mode. *)
Definition minimal_segment (c : FileChange) : string :=
  minimal_header c ++ minimal_block (firstn 5 (added_entries (diff c))).

(** The title line of the minimal mode. *)
Definition minimal_title : string := "📝 변경 파일:" ++ newline.

(** The changed lines of a list of files, as [compress] adds them up. *)
Definition total_changed (changes : list FileChange) : nat :=
  list_sum (map (fun c => insertions c + deletions c) changes).

End MoreNotions.
Import MoreNotions.

Module BodyNotions.
Import Py.


End BodyNotions.
Import BodyNotions.

Module ReaderNotions.
Import Py DiffCompressor GitAnalyzer.

(** What the reader keeps for a new file it read from the working tree:
    no deletion, at least one insertion, and a body of as many lines as
    insertions, every one after a plus sign. *)
Definition read_as_new (fc : FileChange) : Prop :=
  change_type fc = "A"
  /\ deletions fc = 0
  /\ 1 <= insertions fc
  /\ diff fc <> ""
  /\ List.length (split nl (diff fc)) = insertions fc
  /\ forallb (startswith "+") (split nl (diff fc)) = true.

(** What the reader keeps for a modified or deleted file: the counts are
    those of its diff text. *)
Definition read_from_diff (fc : FileChange) : Prop :=
  (change_type fc = "M" \/ change_type fc = "D")
  /\ (insertions fc, deletions fc) = _count_changes (diff fc).

(** A file change as the staged and the unstaged reader make them. *)
Definition well_read (fc : FileChange) : Prop :=
  read_as_new fc \/ read_from_diff fc.

(** What [get_all_changes] keeps for an untracked file: the raw text as
    the body, one insertion for each of its lines. *)
Definition read_untracked (repo : Repo) (fc : FileChange) : Prop :=
  change_type fc = "A"
  /\ deletions fc = 0
  /\ In (path fc) (untracked_files repo)
  /\ read_file repo (path fc) = Content (diff fc)
  /\ insertions fc = List.length (split nl (diff fc)).

End ReaderNotions.
Import ReaderNotions.

Module MoreSamples.
Import Py GitAnalyzer.

(** A working tree with the empty new file [empty.py]. *)
Definition empty_file_tree : Repo :=
  mkRepo (Some "A  empty.py") (Some (" A empty.py" ++ String nl ""))
         (fun _ => Some "") (fun _ => Some "")
         (fun p => if p =? "empty.py" then Content "" else Missing) [].

End MoreSamples.

Module OrchestratorSamples.
Import GitAnalyzer.

(** An opener that finds the working tree [Samples.two_staged]. *)
Definition open_two_staged (p : string) : RepoOpen :=
  Opened Samples.two_staged.

End OrchestratorSamples.

(** ** The configuration ([config_manager.py]) *)

Module ConfigManager.
Import Py.

(** A value of the configuration: a dictionary, or anything else (a
    text, a number, a truth value, a list, [None]). *)
Inductive Value (Leaf : Type) : Type :=
| VLeaf (x : Leaf)
| VDict (items : list (string * Value Leaf)).

Arguments VLeaf {Leaf} x.
Arguments VDict {Leaf} items.

Section Values.
Context {Leaf : Type}.

(** [_merge_configs], by the dictionary that overrides; the inner loop
    is the one over [override.items()], with [result] as its state. *)
Fixpoint merge_with (override : Value Leaf)
  (default : Dict.t (Value Leaf)) : Dict.t (Value Leaf) :=
  match override with
  | VLeaf _ => default
  | VDict items =>
      (fix loop (items : list (string * Value Leaf))
           (result : Dict.t (Value Leaf)) : Dict.t (Value Leaf) :=
         match items with
         | [] => result
         | (key, value) :: rest =>
             loop rest
               match Dict.get key result, value with
               | Some (VDict d), VDict _ =>
                   Dict.set key (VDict (merge_with value d)) result
               | _, _ => Dict.set key value result
               end
         end) items default
  end.

(** [_merge_configs] *)
Definition _merge_configs (default override : Dict.t (Value Leaf))
  : Dict.t (Value Leaf) :=
  merge_with (VDict override) default.

(** The loop of [get] over the parts of the key; [None] where the code
    returns [default]. *)
Fixpoint get_loop (keys : list string) (value : Value Leaf)
  : option (Value Leaf) :=
  match keys with
  | [] => Some value
  | k :: rest =>
      match value with
      | VDict items =>
          match Dict.get k items with
          | Some v => get_loop rest v
          | None => None
          end
      | VLeaf _ => None
      end
  end.

(** [get] *)
Definition get (config : Dict.t (Value Leaf)) (key : string)
  (default : Value Leaf) : Value Leaf :=
  match get_loop (split "." key) (VDict config) with
  | Some value => value
  | None => default
  end.

End Values.


Inductive Raised : Type :=
| ValueError (message : string).






End ConfigManager.

Module ConfigNotions.
Import ConfigManager.

Section Values.
Context {Leaf : Type}.

(** One round of the loop of [_merge_configs]. *)
Definition merge_step (result : Dict.t (Value Leaf)) (key : string)
  (value : Value Leaf) : Dict.t (Value Leaf) :=
  match Dict.get key result, value with
  | Some (VDict d), VDict _ => Dict.set key (VDict (merge_with value d)) result
  | _, _ => Dict.set key value result
  end.

(** The loop of [_merge_configs] from the state [result]. *)
Fixpoint merge_loop (items : list (string * Value Leaf))
  (result : Dict.t (Value Leaf)) : Dict.t (Value Leaf) :=
  match items with
  | [] => result
  | (key, value) :: rest => merge_loop rest (merge_step result key value)
  end.

(** What [_merge_configs] puts under a key the override has: the merge of
    the two values when both are dictionaries, else the override's. *)
Definition merged_value (default : option (Value Leaf))
  (value : Value Leaf) : Value Leaf :=
  match default, value with
  | Some (VDict d), VDict o => VDict (_merge_configs d o)
  | _, _ => value
  end.

(** A value all of whose dictionaries have each key once. *)
Fixpoint keys_once (value : Value Leaf) : Prop :=
  match value with
  | VLeaf _ => True
  | VDict items =>
      NoDup (map fst items)
      /\ (fix all (items : list (string * Value Leaf)) : Prop :=
            match items with
            | [] => True
            | (_, v) :: rest => keys_once v /\ all rest
            end) items
  end.

End Values.
End ConfigNotions.
Import ConfigNotions.

Module ConfigSamples.
Import ConfigManager.

(** Defaults with a section [ai] and a plain entry [name]. *)
Definition defaults : Dict.t (Value string) :=
  [("ai", VDict [("model", VLeaf "gpt-4"); ("max_tokens", VLeaf "500")]);
   ("name", VLeaf "auto")].

(** A file that sets the model and adds a section [review]. *)
Definition from_file : Dict.t (Value string) :=
  [("ai", VDict [("model", VLeaf "gpt-4o")]);
   ("review", VDict [("enabled", VLeaf "true")])].


End ConfigSamples.

Module SummaryNotions.

(** Two file changes that differ at most in change type and diff text. *)
Definition same_counts (a b : FileChange) : Prop :=
  path a = path b /\ insertions a = insertions b
  /\ deletions a = deletions b.

(** A file change without its diff text and change type. *)
Definition counts_only (c : FileChange) : FileChange :=
  mkFileChange (path c) "" (insertions c) (deletions c) "".

(** The groups of a dictionary with [counts_only] files. *)
Definition erase_items (d : Dict.t (list FileChange))
  : Dict.t (list FileChange) :=
  map (fun item => (fst item, map counts_only (snd item))) d.

(** The files of [Samples.large_change] with other diff texts and change
    types. *)
Definition large_change_rewritten : list FileChange :=
  [ mkFileChange "core.py" "D" 150 50 "-total = 0";
    mkFileChange "README.md" "A" 40 10 "";
    mkFileChange "views.py" "M" 200 50 "+count = 2";
    mkFileChange "util.py" "R" 80 20 "" ].

End SummaryNotions.
Import SummaryNotions.

(** ** The commit message prompt ([commit_message_generator.py]) *)

(** [_build_prompt] of the three commit message providers.  The copies in
    [GeminiProvider] and [AnthropicProvider] are the same text; the one
    in [OpenAIProvider] first reads two settings from [config], which it
    does not use afterwards. *)
Module CommitProvider.
Import Py.

Definition newline : string := String nl EmptyString.

(** The text of [_build_prompt] before the files. *)
Definition prompt_head : string :=
  "You are a Git commit message expert. Write ONE SPECIFIC commit message."
  ++ newline ++ newline ++ "🚨 CRITICAL RULES:" ++ newline
  ++ "1. Be SPECIFIC - say WHAT was added/fixed, not generic terms"
  ++ newline
  ++ "2. AVOID: implement, functionality, feature, improve, update, change, endpoint, resource, service, logic"
  ++ newline
  ++ "3. USE: add [specific thing], fix [specific bug], refactor [specific part]"
  ++ newline ++ "4. Max 60 characters, lowercase after colon" ++ newline
  ++ newline ++ "📌 TYPE RULES:" ++ newline
  ++ "- feat: NEW functionality (new methods/APIs/endpoints)" ++ newline
  ++ "- fix: BUG fix (fixing broken behavior)" ++ newline
  ++ "- refactor: Code restructure (NO new features)" ++ newline ++ newline
  ++ "✅ GOOD (SPECIFIC):" ++ newline
  ++ "- feat: add config comparison validation" ++ newline
  ++ "- feat: add JWT token refresh endpoint" ++ newline
  ++ "- feat: add rollback handling for transfers" ++ newline
  ++ "- fix: null pointer in user lookup" ++ newline
  ++ "- fix: validation error in email format" ++ newline ++ newline
  ++ "❌ BAD (TOO GENERIC - FORBIDDEN!):" ++ newline
  ++ "- feat: implement transfer functionality ❌" ++ newline
  ++ "- feat: add new feature ❌" ++ newline ++ "- feat: improve service ❌"
  ++ newline ++ "- fix: update code ❌" ++ newline
  ++ "- refactor: restructure code ❌" ++ newline ++ newline
  ++ "💡 HOW TO BE SPECIFIC:" ++ newline
  ++ "Look at method names, endpoints, class names in the diff!" ++ newline
  ++ "- See 'compareConfigs()' → say 'add config comparison'" ++ newline
  ++ "- See 'validateTransfer()' → say 'add transfer validation'"
  ++ newline ++ "- See '@POST /rollback' → say 'add rollback endpoint'"
  ++ newline ++ newline ++ "Git Changes:" ++ newline
  ++ "━━━━━━━━━━━━━━━━━━━━━━━━━━━━━━━" ++ newline.

(** The text of [_build_prompt] after the files. *)
Definition prompt_tail : string :=
  newline ++ "━━━━━━━━━━━━━━━━━━━━━━━━━━━━━━━" ++ newline ++ newline
  ++ "🎯 YOUR TASK: Read the ACTUAL method names above and write a commit message."
  ++ newline ++ newline
  ++ "📖 STEP 1: Look at 'DETECTED NEW METHODS/FUNCTIONS' section."
  ++ newline ++ "   Extract ACTION from each method name:" ++ newline
  ++ "   - Method name format: `actionSubject` (e.g., `getUserData`, `validateEmail`, `exportReport`)"
  ++ newline
  ++ "   - Extract: action + what (e.g., 'get user data', 'validate email', 'export report')"
  ++ newline ++ newline
  ++ "🚨 CRITICAL: Use ONLY what you see in the actual method names. Do NOT invent!"
  ++ newline ++ newline ++ "📝 STEP 2: Decide commit type." ++ newline
  ++ "   - NEW public methods/APIs → `feat:`" ++ newline
  ++ "   - Code restructure only → `refactor:`" ++ newline ++ newline
  ++ "✍️ STEP 3: Write message (max 60 chars)." ++ newline
  ++ "   Format: `feat: add [action1], [action2]`" ++ newline
  ++ "   Example pattern: `feat: add user retrieval, email validation`"
  ++ newline ++ newline
  ++ "❌ FORBIDDEN: endpoint, resource, service, logic, functionality, operations"
  ++ newline
  ++ "✅ ALLOWED: list, get, compare, transfer, export, validate, import, delete"
  ++ newline ++ newline
  ++ "Write commit message based on ACTUAL method names:".


(** The label looked up for [change.change_type]. *)
Definition change_symbol (change_type : string) : string :=
  if change_type =? "A" then "🆕 ADDED (NEW FILE)"
  else if change_type =? "M" then "📝 MODIFIED"
  else if change_type =? "D" then "🗑️  DELETED"
  else if change_type =? "R" then "📋 RENAMED"
  else "CHANGED".

Definition method_keywords : list string :=
  [ "public "; "private "; "protected "; "def "; "function "; "async ";
    "@" ].

Definition endpoint_markers : list string :=
  [ "Mapping"; "RequestMapping"; "Path"; "Route" ].

(** [line.startswith('+') and not line.startswith('+++')] *)
Definition is_added (line : string) : bool :=
  startswith "+" line && negb (startswith "+++" line).

(** [line.startswith('-') and not line.startswith('---')] *)
Definition is_removed (line : string) : bool :=
  startswith "-" line && negb (startswith "---" line).

(** The test that puts an added line among the new methods. *)
Definition is_method (added_line : string) : bool :=
  existsb (fun keyword => contains keyword added_line) method_keywords
  && contains "(" added_line.

(** The test that puts an added line among the endpoints. *)
Definition is_endpoint (added_line : string) : bool :=
  startswith "@" added_line
  && existsb (fun marker => contains marker added_line) endpoint_markers.

(** The four lists filled by the loop over the diff lines. *)
Record Found : Type := mkFound {
  added_lines : list string;
  removed_lines : list string;
  new_methods : list string;
  endpoints : list string
}.

Definition nothing_found : Found := mkFound [] [] [] [].

(** One round of the loop over [diff_lines[:200]]. *)
Definition read_line (found : Found) (line : string) : Found :=
  if is_added line then
    let added_line := strip (drop 1 line) in
    mkFound
      (added_lines found ++ [added_line])
      (removed_lines found)
      (if is_method added_line then new_methods found ++ [added_line]
       else new_methods found)
      (if is_endpoint added_line then endpoints found ++ [added_line]
       else endpoints found)
  else if is_removed line then
    mkFound
      (added_lines found)
      (removed_lines found ++ [strip (drop 1 line)])
      (new_methods found)
      (endpoints found)
  else found.

(** The loop over the first 200 lines of a diff. *)
Definition read_diff (diff : string) : Found :=
  fold_left read_line (firstn 200 (split nl diff)) nothing_found.

(** One round of a loop that lists every entry, cut at [width]. *)
Definition list_entry (sign : string) (width : nat) (prompt line : string)
  : string :=
  prompt ++ sign ++ take width line ++ newline.

(** [line and len(line) > 3] *)
Definition is_shown (line : string) : bool :=
  negb (line =? "") && (3 <? String.length line)%nat.

(** One round of a loop that lists the entries of more than three
    characters, cut at [width]. *)
Definition list_shown (sign : string) (width : nat) (prompt line : string)
  : string :=
  if is_shown line then prompt ++ sign ++ take width line ++ newline
  else prompt.

(** The part of the loop body that follows [if change.diff:]. *)
Definition add_found (prompt : string) (found : Found) : string :=
  let prompt :=
    match new_methods found with
    | [] => prompt
    | _ :: _ =>
        fold_left (list_entry "  + " 120) (firstn 10 (new_methods found))
          (prompt ++ newline ++ "⚠️  DETECTED "
           ++ str_of_nat (List.length (new_methods found))
           ++ " NEW METHODS/FUNCTIONS - This is likely a FEAT, not refactor!"
           ++ newline ++ "New methods:" ++ newline)
    end in
  let prompt :=
    match endpoints found with
    | [] => prompt
    | _ :: _ =>
        fold_left (list_entry "  + " 120) (firstn 8 (endpoints found))
          (prompt ++ "Detected endpoints/annotations:" ++ newline)
    end in
  match added_lines found, removed_lines found with
  | [], [] => prompt
  | _, _ =>
      let prompt := prompt ++ newline ++ "Key changes:" ++ newline in
      let prompt :=
        match added_lines found with
        | [] => prompt
        | _ :: _ =>
            fold_left (list_shown "    + " 120)
              (firstn 20 (added_lines found))
              (prompt ++ "  ADDED ("
               ++ str_of_nat (List.length (added_lines found))
               ++ " lines):" ++ newline)
        end in
      match removed_lines found with
      | [] => prompt
      | _ :: _ =>
          fold_left (list_shown "    - " 100)
            (firstn 10 (removed_lines found))
            (prompt ++ "  REMOVED ("
             ++ str_of_nat (List.length (removed_lines found))
             ++ " lines):" ++ newline)
      end
  end.

(** One round of the loop over [changes]. *)
Definition add_file (prompt : string) (change : FileChange) : string :=
  let prompt :=
    prompt ++ newline ++ "File: " ++ path change ++ " ("
    ++ change_symbol (change_type change) ++ ")" ++ newline in
  let prompt :=
    prompt ++ "Stats: +" ++ str_of_nat (insertions change) ++ " / -"
    ++ str_of_nat (deletions change) ++ " lines" ++ newline in
  if diff change =? "" then prompt
  else add_found prompt (read_diff (diff change)).

(** [_build_prompt] of [GeminiProvider] and of [AnthropicProvider]; the
    [config] argument is not read. *)
Definition _build_prompt (changes : list FileChange) : string :=
  fold_left add_file changes prompt_head ++ prompt_tail.

Inductive Raised : Type :=
| AttributeError.

(** [config.get('commit', {}).get(name, default)], of which only the
    failure matters: a value under [commit] that is no dictionary has
    no [get]. *)
Definition read_commit_setting {Leaf : Type}
  (config : Dict.t (ConfigManager.Value Leaf)) : Raised + unit :=
  match Dict.get "commit" config with
  | Some (ConfigManager.VLeaf _) => inl AttributeError
  | Some (ConfigManager.VDict _) => inr tt
  | None => inr tt
  end.

(** [_build_prompt] of [OpenAIProvider]. *)
Definition _build_prompt_openai {Leaf : Type}
  (changes : list FileChange)
  (config : Dict.t (ConfigManager.Value Leaf)) : Raised + string :=
  match read_commit_setting config with
  | inl raised => inl raised
  | inr _ =>
      match read_commit_setting config with
      | inl raised => inl raised
      | inr _ => inr (_build_prompt changes)
      end
  end.

End CommitProvider.

Module PromptNotions.
Import Py CommitProvider.

(** What the prompt keeps of an added or a removed line: the text after
    the sign, trimmed. *)
Definition text_of (line : string) : string := strip (drop 1 line).

(** The number of line breaks of a text. *)
Fixpoint line_breaks (s : string) : nat :=
  match s with
  | EmptyString => 0
  | String c s' => (if Ascii.eqb c nl then 1 else 0) + line_breaks s'
  end.

(** [change] with another diff text. *)
Definition with_diff (change : FileChange) (text : string) : FileChange :=
  mkFileChange (path change) (change_type change) (insertions change)
               (deletions change) text.

(** The entries found in a diff hold no line break. *)
Definition free_of_breaks (found : Found) : Prop :=
  Forall (fun entry => mem_char nl entry = false) (added_lines found)
  /\ Forall (fun entry => mem_char nl entry = false) (removed_lines found)
  /\ Forall (fun entry => mem_char nl entry = false) (new_methods found)
  /\ Forall (fun entry => mem_char nl entry = false) (endpoints found).

End PromptNotions.

Module PromptSamples.

(** Two hundred added lines. *)
Definition assignments : list string := repeat "+x = 1" 200.

Definition service : FileChange :=
  mkFileChange "service.py" "M" 201 0 "".

End PromptSamples.

(** * Properties *)

(** ** Facts about text *)

Section TextFacts.
Import Py.

Lemma sapp_assoc (a b c : string) : (a ++ b) ++ c = a ++ (b ++ c).
Proof. induction a as [|x a IH]; simpl; [reflexivity | now rewrite IH]. Qed.

Lemma sapp_nil_r (a : string) : a ++ "" = a.
Proof. induction a as [|x a IH]; simpl; [reflexivity | now rewrite IH]. Qed.

(** A loop that only appends to its text: the text at entry is a prefix
    of the result, and the rest does not depend on it. *)
Lemma fold_left_appends {A : Type} (step : string -> A -> string)
  (H : forall acc x, step acc x = acc ++ step "" x) (xs : list A)
  (acc : string) :
  fold_left step xs acc = acc ++ fold_left step xs "".
Proof.
  revert acc; induction xs as [|x xs IH]; intro acc; simpl.
  - now rewrite sapp_nil_r.
  - rewrite IH, (IH (step "" x)), H. apply sapp_assoc.
Qed.

Lemma startswith_refl (p s : string) : startswith p (p ++ s) = true.
Proof.
  induction p as [|a p IH]; simpl; [reflexivity|].
  now rewrite Ascii.eqb_refl, IH.
Qed.

End TextFacts.

(** ** The smart mode, file by file *)

Section SmartMode.
Import Py DiffCompressor.

Lemma smart_step_appends (level acc : string) (c : FileChange) :
  smart_step level acc c = acc ++ smart_step level "" c.
Proof.
  unfold smart_step.
  destruct ((_get_file_priority (path c) =? "low")
            && (level =? ReviewLevel.QUICK)).
  - now rewrite sapp_nil_r.
  - destruct (diff c =? ""); rewrite ?sapp_assoc; reflexivity.
Qed.

Lemma compress_smart_cons (level : string) (c : FileChange)
  (cs : list FileChange) :
  _compress_smart (c :: cs) level
  = smart_step level "" c ++ _compress_smart cs level.
Proof.
  unfold _compress_smart; simpl.
  apply fold_left_appends, smart_step_appends.
Qed.

Lemma compress_smart_app (level : string) (xs ys : list FileChange) :
  _compress_smart (xs ++ ys)%list level
  = _compress_smart xs level ++ _compress_smart ys level.
Proof.
  induction xs as [|x xs IH]; [reflexivity|].
  change ((x :: xs) ++ ys)%list with (x :: (xs ++ ys))%list.
  now rewrite !compress_smart_cons, IH, sapp_assoc.
Qed.

Lemma smart_step_skipped (c : FileChange) :
  _get_file_priority (path c) = "low" ->
  smart_step ReviewLevel.QUICK "" c = "".
Proof. intro H; unfold smart_step; now rewrite H. Qed.

Lemma smart_step_kept (level : string) (c : FileChange) :
  _get_file_priority (path c) <> "low" \/ level <> ReviewLevel.QUICK ->
  smart_step level "" c = smart_header c ++ smart_body level c.
Proof.
  intro H; unfold smart_step, smart_body.
  replace ((_get_file_priority (path c) =? "low")
           && (level =? ReviewLevel.QUICK)) with false.
  - destruct (diff c =? ""); rewrite ?sapp_assoc, ?sapp_nil_r; reflexivity.
  - symmetry; apply andb_false_iff.
    destruct H as [H|H]; [left|right]; now apply String.eqb_neq.
Qed.

(** The text of the smart mode is empty or opens with a line break. *)
Lemma compress_smart_head (level : string) (cs : list FileChange) :
  _compress_smart cs level = ""
  \/ exists rest, _compress_smart cs level = String nl rest.
Proof.
  induction cs as [|c cs IH]; [now left|].
  rewrite compress_smart_cons.
  unfold smart_step.
  destruct ((_get_file_priority (path c) =? "low")
            && (level =? ReviewLevel.QUICK)); [exact IH|].
  right. unfold smart_header, newline.
  destruct (diff c =? ""); simpl; eexists; reflexivity.
Qed.

End SmartMode.

(** ** File priority *)

Section Priority.
Import Py DiffCompressor.

(** C10: the low-priority patterns are tried first: a path whose
    lower-cased form contains one of them is tagged low, whether or not
    it also contains a high-priority pattern; so are [test_service.py]
    and [auth_config.yaml], which contain patterns of both lists. *)
Theorem low_priority_takes_precedence :
  (forall (p low high : string),
      In low low_priority_patterns ->
      In high high_priority_patterns ->
      contains low (lower p) = true ->
      contains high (lower p) = true ->
      _get_file_priority p = "low")
  /\ (existsb (fun pat => contains pat (lower "test_service.py"))
              high_priority_patterns = true
      /\ _get_file_priority "test_service.py" = "low")
  /\ (existsb (fun pat => contains pat (lower "auth_config.yaml"))
              high_priority_patterns = true
      /\ _get_file_priority "auth_config.yaml" = "low").
Proof.
  split; [|split; split; reflexivity].
  intros p low high Hlow _ Hc _.
  unfold _get_file_priority.
  replace (existsb (fun pattern => contains pattern (lower p))
                   low_priority_patterns) with true; [reflexivity|].
  symmetry; apply existsb_exists; exists low; split; assumption.
Qed.

Lemma low_priority_takes_precedence_witness :
  _get_file_priority "Test_Service.py" = "low".
Proof.
  apply (proj1 low_priority_takes_precedence
               "Test_Service.py" "test_" "service");
    first [reflexivity | simpl; tauto].
Defined.

(** C4: [auth_service.py] is tagged high and [test_utils.py] low; in
    smart mode at the quick level a low-priority file adds nothing to the
    text, which is the text for the list without that file, and a
    high-priority file adds its heading and its compressed body in its
    place. *)
Theorem priority_gating :
  _get_file_priority "auth_service.py" = "high"
  /\ _get_file_priority "test_utils.py" = "low"
  /\ (forall (before after : list FileChange) (c : FileChange),
         _get_file_priority (path c) = "low" ->
         _compress_smart (before ++ c :: after)%list ReviewLevel.QUICK
         = _compress_smart (before ++ after)%list ReviewLevel.QUICK)
  /\ (forall (before after : list FileChange) (c : FileChange),
         _get_file_priority (path c) = "high" ->
         _compress_smart (before ++ c :: after)%list ReviewLevel.QUICK
         = _compress_smart before ReviewLevel.QUICK
           ++ (smart_header c ++ smart_body ReviewLevel.QUICK c)
           ++ _compress_smart after ReviewLevel.QUICK).
Proof.
  split; [reflexivity|]. split; [reflexivity|]. split.
  - intros before after c Hlow.
    rewrite !compress_smart_app, compress_smart_cons.
    now rewrite (smart_step_skipped c Hlow).
  - intros before after c Hhigh.
    rewrite compress_smart_app, compress_smart_cons.
    rewrite smart_step_kept; [reflexivity|].
    left; rewrite Hhigh; discriminate.
Qed.

Lemma priority_gating_witness :
  _compress_smart [Samples.test_utils; Samples.auth_service]
                  ReviewLevel.QUICK
  = _compress_smart [Samples.auth_service] ReviewLevel.QUICK
  /\ _compress_smart [Samples.test_utils; Samples.auth_service]
                     ReviewLevel.QUICK
     = smart_header Samples.auth_service
       ++ smart_body ReviewLevel.QUICK Samples.auth_service.
Proof.
  split.
  - apply (proj1 (proj2 (proj2 priority_gating))
                 [] [Samples.auth_service] Samples.test_utils).
    reflexivity.
  - exact (proj2 (proj2 (proj2 priority_gating))
                 [Samples.test_utils] [] Samples.auth_service eq_refl).
Defined.

End Priority.

(** ** Splitting and joining *)

Section SplitJoin.
Import Py.

Lemma split_nonempty (sep : ascii) (s : string) : split sep s <> [].
Proof.
  destruct s as [|c s]; simpl; [discriminate|].
  destruct (Ascii.eqb c sep); [discriminate|].
  destruct (split sep s); discriminate.
Qed.

Lemma split_pieces_free (sep : ascii) (s : string) :
  Forall (fun piece => mem_char sep piece = false) (split sep s).
Proof.
  induction s as [|c s IH]; simpl.
  - constructor; [reflexivity | constructor].
  - destruct (Ascii.eqb c sep) eqn:E.
    + constructor; [reflexivity | exact IH].
    + destruct (split sep s) as [|piece rest].
      * constructor; [simpl; now rewrite E | constructor].
      * inversion IH; subst. constructor; [simpl; now rewrite E | assumption].
Qed.

Lemma split_free (sep : ascii) (x : string) :
  mem_char sep x = false -> split sep x = [x].
Proof.
  induction x as [|c x IH]; simpl; [reflexivity|].
  intro H; apply orb_false_iff in H as [E H].
  now rewrite E, (IH H).
Qed.

Lemma split_free_then (sep : ascii) (x rest : string) :
  mem_char sep x = false ->
  split sep (x ++ String sep rest) = x :: split sep rest.
Proof.
  induction x as [|c x IH]; simpl.
  - now rewrite Ascii.eqb_refl.
  - intro H; apply orb_false_iff in H as [E H].
    now rewrite E, (IH H).
Qed.

(** Splitting a joined list gives the list back, when no part holds the
    separator. *)
Lemma split_join (sep : ascii) (parts : list string) :
  parts <> [] ->
  Forall (fun piece => mem_char sep piece = false) parts ->
  split sep (join sep parts) = parts.
Proof.
  induction parts as [|x parts IH]; [congruence|].
  intros _ H; inversion H as [|? ? Hx Hparts]; subst.
  destruct parts as [|y parts].
  - simpl; now apply split_free.
  - change (join sep (x :: y :: parts))
      with (x ++ String sep (join sep (y :: parts))).
    rewrite (split_free_then _ _ _ Hx), IH;
      [reflexivity | discriminate | assumption].
Qed.

Lemma length_split_join_le (sep : ascii) (parts : list string) (n : nat) :
  Forall (fun piece => mem_char sep piece = false) parts ->
  List.length parts <= n -> 1 <= n ->
  List.length (split sep (join sep parts)) <= n.
Proof.
  intros H Hn H1. destruct parts as [|x parts]; [simpl; lia|].
  rewrite split_join; [assumption | discriminate | assumption].
Qed.

End SplitJoin.

(** ** The change reader *)

Section Reader.
Import Py GitAnalyzer.

Lemma sum_from {A : Type} (f : A -> nat) (xs : list A) (acc : nat) :
  fold_left (fun acc x => acc + f x) xs acc = acc + list_sum (map f xs).
Proof.
  revert acc; induction xs as [|x xs IH]; intro acc; simpl; [lia|].
  rewrite IH; lia.
Qed.

Lemma sum_list_sum {A : Type} (f : A -> nat) (xs : list A) :
  sum f xs = list_sum (map f xs).
Proof. unfold sum; now rewrite sum_from. Qed.

(** The body made for a new file has the lines of the file, each after
    a plus sign. *)
Lemma added_diff_text_lines (content : string) :
  split nl (added_diff_text content)
  = map (fun line => "+" ++ line) (split nl content).
Proof.
  unfold added_diff_text. apply split_join.
  - destruct (split nl content) eqn:E; [|discriminate].
    now apply split_nonempty in E.
  - apply Forall_map.
    eapply Forall_impl; [|apply split_pieces_free].
    intros piece H; simpl. exact H.
Qed.

(** The staged path of a new file: as many insertions as the text has
    lines, no deletion, and a body of that many lines, all additions. *)
Lemma staged_new_file (repo : Repo) (changes : list FileChange)
  (file_path content : string) :
  read_file repo file_path = Content content ->
  exists fc,
    staged_file_step repo changes (file_path, "A") = (changes ++ [fc])%list
    /\ insertions fc = List.length (split nl content)
    /\ deletions fc = 0
    /\ List.length (split nl (diff fc)) = insertions fc
    /\ forallb (startswith "+") (split nl (diff fc)) = true.
Proof.
  intro H. eexists; split;
    [unfold staged_file_step; simpl; rewrite H; reflexivity|].
  simpl. rewrite added_diff_text_lines, length_map.
  repeat split. apply forallb_forall.
  intros x Hx; apply in_map_iff in Hx as [line [<- _]]. reflexivity.
Qed.

(** The unstaged path of a new file with some text: the same. *)
Lemma unstaged_new_file (repo : Repo) (changes : list FileChange)
  (file_path content : string) :
  read_file repo file_path = Content content -> content <> "" ->
  exists fc,
    unstaged_file_step repo changes ("A", file_path) = (changes ++ [fc])%list
    /\ insertions fc = List.length (split nl content)
    /\ deletions fc = 0
    /\ List.length (split nl (diff fc)) = insertions fc
    /\ forallb (startswith "+") (split nl (diff fc)) = true.
Proof.
  intros H Hne. apply String.eqb_neq in Hne.
  eexists; split;
    [unfold unstaged_file_step; simpl; rewrite H, Hne; reflexivity|].
  simpl. rewrite added_diff_text_lines, length_map.
  repeat split. apply forallb_forall.
  intros x Hx; apply in_map_iff in Hx as [line [<- _]]. reflexivity.
Qed.

(** The totals of a change set are sums over its two partitions when the
    reader builds it. *)
Lemma get_all_changes_totals (repo : Repo) (include_untracked : bool) :
  let changes := get_all_changes repo include_untracked in
  let all_files := (staged_files changes ++ unstaged_files changes)%list in
  total_insertions changes = list_sum (map insertions all_files)
  /\ total_deletions changes = list_sum (map deletions all_files)
  /\ total_files changes
     = List.length (staged_files changes)
       + List.length (unstaged_files changes).
Proof.
  unfold get_all_changes; simpl.
  rewrite !sum_list_sum, length_app. repeat split.
Qed.

(** After the restriction to named files the file count is the size of
    the two partitions. *)
Lemma select_files_total_files (files : list string) (changes : GitChanges) :
  let selected := AutoCommit.select_files files changes in
  total_files selected
  = List.length (staged_files selected)
    + List.length (unstaged_files selected).
Proof. reflexivity. Qed.

End Reader.

Section ReaderClaims.
Import Py GitAnalyzer.

(** C2: the path for untracked files does not make the body the claim
    describes.  For the untracked file [notes.py] of ten lines the reader
    reports ten insertions and no deletion, but the body is the text of
    the file as it is: ten lines, none of them opening with a plus sign.
    The same file under the staged status gets the body of ten additions. *)
Theorem untracked_new_file_body :
  (exists fc,
      unstaged_files
        (get_all_changes
           (Samples.new_file_tree "?? notes.py"
              ("?? notes.py" ++ String nl "") ["notes.py"]) true) = [fc]
      /\ path fc = "notes.py" /\ change_type fc = "A"
      /\ insertions fc = 10 /\ deletions fc = 0
      /\ diff fc = Samples.ten_lines
      /\ List.length (lines_of (diff fc)) = 10
      /\ existsb (startswith "+") (lines_of (diff fc)) = false)
  /\ (exists fc,
         staged_files
           (get_all_changes
              (Samples.new_file_tree "A  notes.py"
                 ("A  notes.py" ++ String nl "") []) true) = [fc]
         /\ path fc = "notes.py" /\ change_type fc = "A"
         /\ insertions fc = 10 /\ deletions fc = 0
         /\ List.length (lines_of (diff fc)) = 10
         /\ forallb (startswith "+") (lines_of (diff fc)) = true).
Proof.
  split; eexists; (split; [vm_compute; reflexivity|]);
    vm_compute; repeat split.
Qed.

(** C3: the restriction to named files leaves the insertion total of the
    full change set in place.  With [a.py] (five insertions) and [b.py]
    (seven) staged, the reader's totals are 12 insertions in 2 files;
    after the restriction to [a.py] the file count is 1 and the
    partitions hold 5 insertions, while [total_insertions] still is 12. *)
Theorem selected_files_keep_stale_totals :
  let changes := get_all_changes Samples.two_staged false in
  let selected := AutoCommit.select_files ["a.py"] changes in
  total_insertions changes = 12 /\ total_files changes = 2
  /\ total_files selected = 1
  /\ list_sum (map insertions
                 (staged_files selected ++ unstaged_files selected)) = 5
  /\ total_insertions selected = 12.
Proof. vm_compute. repeat split. Qed.

(** C9: when the directory is no repository, making the reader raises
    the error that says so, and [main], which opens the current
    directory, leaves with code 1 without any change set. *)
Theorem open_failure_is_fatal (git_Repo : string -> RepoOpen) :
  (forall repo_path,
      git_Repo (path_or_dot repo_path) = InvalidGitRepositoryError ->
      __init__ git_Repo repo_path
      = inl (ValueError ("'" ++ path_or_dot repo_path
                         ++ "'는 유효한 Git 저장소가 아닙니다.")))
  /\ (git_Repo "." = InvalidGitRepositoryError ->
      forall has_changes staged_only files,
        AutoCommit.read_changes git_Repo has_changes staged_only files
        = AutoCommit.Exit 1
        /\ forall changes,
            AutoCommit.read_changes git_Repo has_changes staged_only files
            <> AutoCommit.Continue changes).
Proof.
  split.
  - intros repo_path H. unfold __init__. now rewrite H.
  - intros H has_changes staged_only files.
    assert (E : AutoCommit.read_changes git_Repo has_changes staged_only files
                = AutoCommit.Exit 1).
    { unfold AutoCommit.read_changes, __init__. simpl. now rewrite H. }
    split; [exact E|]. intros changes; rewrite E; discriminate.
Qed.

Lemma open_failure_is_fatal_witness :
  __init__ Samples.no_repository (Some "/tmp/plain")
  = inl (ValueError "'/tmp/plain'는 유효한 Git 저장소가 아닙니다.")
  /\ AutoCommit.read_changes Samples.no_repository (fun _ => true) false []
     = AutoCommit.Exit 1.
Proof.
  split.
  - exact (proj1 (open_failure_is_fatal Samples.no_repository)
                 (Some "/tmp/plain") eq_refl).
  - exact (proj1 (proj2 (open_failure_is_fatal Samples.no_repository)
                        eq_refl (fun _ => true) false [])).
Defined.

End ReaderClaims.

(** ** The compressor as a whole *)

Section Whole.
Import Py DiffCompressor CodeReviewer.

(** C7: for the empty list of changes and every level the report is the
    empty text and its token estimate is zero; the review entry point
    answers an empty list with a token estimate of zero. *)
Theorem empty_change_list :
  (forall level,
      compress [] level = ""
      /\ token_estimate_of (compress [] level) = 0)
  /\ (forall (Config : Type) review_code (config : Config) level,
         exists result,
           review Config review_code [] config level = inr result
           /\ token_estimate result = 0).
Proof.
  split.
  - intro level. assert (E : compress [] level = "").
    { unfold compress. simpl. now destruct (level =? ReviewLevel.QUICK). }
    now rewrite E.
  - intros. eexists; split; reflexivity.
Qed.

(** The estimate counts characters, not bytes: the report for
    [auth_service] at the quick level has 82 characters in 100 bytes, and
    its estimate is 20. *)
Example token_estimate_counts_characters :
  token_estimate_of (compress [Samples.auth_service] "quick") = 20
  /\ String.length (compress [Samples.auth_service] "quick") = 100.
Proof. split; vm_compute; reflexivity. Qed.

End Whole.

(** ** The line-importance filter *)

Section ImportantLine.
Import Py DiffCompressor.

Lemma lstrip_empty (s : string) : lstrip s = "" -> all_space s = true.
Proof.
  induction s as [|c s IH]; simpl; [reflexivity|].
  destruct (is_space c); [exact IH | discriminate].
Qed.

Lemma lstrip_head (s : string) :
  lstrip s = ""
  \/ exists c rest, lstrip s = String c rest /\ is_space c = false.
Proof.
  induction s as [|c s IH]; simpl; [now left|].
  destruct (is_space c) eqn:E; [exact IH|].
  right; exists c, s; split; [reflexivity | exact E].
Qed.

Lemma rstrip_empty (s : string) : rstrip s = "" -> all_space s = true.
Proof.
  induction s as [|c s IH]; simpl; [reflexivity|].
  destruct (rstrip s) eqn:E; [|discriminate].
  destruct (is_space c); [intros _; now apply IH | discriminate].
Qed.

Lemma strip_empty (s : string) : strip s = "" -> all_space s = true.
Proof.
  unfold strip; intro H. apply rstrip_empty in H.
  destruct (lstrip_head s) as [E | (c & rest & E & Hc)].
  - now apply lstrip_empty.
  - rewrite E in H; simpl in H. now rewrite Hc in H.
Qed.

Lemma startswith_all_space (p s : string) :
  startswith p s = true -> all_space s = true -> all_space p = true.
Proof.
  revert s; induction p as [|a p IH]; intros s; simpl; [reflexivity|].
  destruct s as [|b s]; [discriminate|]; simpl.
  intros H Hs. apply andb_true_iff in H as [Hab Hp].
  apply andb_true_iff in Hs as [Hb Hs].
  apply Ascii.eqb_eq in Hab; subst b.
  now rewrite Hb, (IH s Hp Hs).
Qed.

Lemma contains_all_space (p s : string) :
  contains p s = true -> all_space s = true -> all_space p = true.
Proof.
  induction s as [|b s IH]; simpl.
  - rewrite orb_false_r. intros H _. now apply (startswith_all_space p "").
  - intros H Hs. apply orb_true_iff in H as [H|H].
    + now apply (startswith_all_space p (String b s)).
    + apply andb_true_iff in Hs as [_ Hs]. now apply IH.
Qed.

(** A text of white space holds no signal token. *)
Lemma blank_has_no_signal (line : string) :
  all_space line = true ->
  existsb (fun pattern => contains pattern line) important_patterns = false.
Proof.
  intro Hs.
  destruct (existsb _ important_patterns) eqn:E; [|reflexivity].
  apply existsb_exists in E as (p & Hin & Hc).
  apply contains_all_space in Hc; [|exact Hs].
  assert (F : forallb (fun p => negb (all_space p)) important_patterns = true)
    by reflexivity.
  rewrite forallb_forall in F. specialize (F p Hin).
  now rewrite Hc in F.
Qed.

Lemma short_line_rejected (line : string) :
  String.length line < 3 -> _is_important_line line = false.
Proof.
  intro H. unfold _is_important_line.
  replace (String.length line <? 3)%nat with true
    by (symmetry; now apply Nat.ltb_lt).
  now rewrite orb_true_r.
Qed.

(** C5, as the code has it: the filter rejects every blank line, every
    line given to it with fewer than three characters (callers give it
    trimmed lines, so there this is the length after trimming) and every
    line whose trimmed lower-cased form starts with or is a noise token;
    it accepts only lines that hold a signal token.  It rejects the
    comment line and accepts the condition line of the specification. *)
Theorem important_line_filter :
  (forall line, strip line = "" -> _is_important_line line = false)
  /\ (forall line,
         String.length line < 3 -> _is_important_line line = false)
  /\ (forall line,
         String.length (strip line) < 3 ->
         _is_important_line (strip line) = false)
  /\ (forall line pattern,
         In pattern skip_patterns ->
         startswith pattern (strip (lower line)) = true
         \/ strip (lower line) = pattern ->
         _is_important_line line = false)
  /\ (forall line,
         _is_important_line line = true ->
         exists pattern,
           In pattern important_patterns /\ contains pattern line = true)
  /\ _is_important_line "    # just a comment" = false
  /\ _is_important_line "if user.active:" = true.
Proof.
  split; [|split; [|split; [|split; [|split; [|split; reflexivity]]]]].
  - intros line H. apply strip_empty in H.
    unfold _is_important_line.
    destruct ((line =? "") || (String.length line <? 3)%nat); [reflexivity|].
    destruct (existsb _ skip_patterns); [reflexivity|].
    now apply blank_has_no_signal.
  - exact short_line_rejected.
  - intros line; apply short_line_rejected.
  - intros line pattern Hin H.
    unfold _is_important_line.
    destruct ((line =? "") || (String.length line <? 3)%nat); [reflexivity|].
    replace (existsb _ skip_patterns) with true; [reflexivity|].
    symmetry; apply existsb_exists. exists pattern; split; [exact Hin|].
    apply orb_true_iff. destruct H as [H|H]; [now left|right].
    now apply String.eqb_eq.
  - intros line. unfold _is_important_line.
    destruct ((line =? "") || (String.length line <? 3)%nat); [discriminate|].
    destruct (existsb _ skip_patterns); [discriminate|].
    intro H; apply existsb_exists in H as (p & Hin & Hc). now exists p.
Qed.

Lemma important_line_filter_witness :
  _is_important_line "   " = false
  /\ _is_important_line "x=" = false
  /\ _is_important_line (strip "  x=  ") = false
  /\ _is_important_line "  Import os" = false
  /\ (exists pattern,
         In pattern important_patterns
         /\ contains pattern "if user.active:" = true).
Proof.
  destruct important_line_filter
    as (Hblank & Hshort & Htrim & Hskip & Hsig & _).
  split; [apply Hblank; reflexivity|].
  split; [apply Hshort; simpl; lia|].
  split; [apply Htrim; simpl; lia|].
  split; [apply (Hskip _ "import "); [simpl; tauto | left; reflexivity]|].
  apply Hsig; reflexivity.
Defined.

(** The claim C5 as it is stated fails: the line of an equals sign
    between two spaces has one character after trimming, and the filter
    accepts it. *)
Lemma important_line_untrimmed_short :
  ~ (forall line,
        String.length (strip line) < 3 -> _is_important_line line = false).
Proof.
  intro H. specialize (H " = "). simpl in H.
  assert (E : _is_important_line " = " = true) by reflexivity.
  rewrite H in E; [discriminate | lia].
Qed.

End ImportantLine.

(** ** The body of a modified or deleted file *)

Section ModifiedBody.
Import Py DiffCompressor.

Lemma added_not_removed (line : string) :
  is_added_line line = true -> is_removed_line line = false.
Proof.
  unfold is_added_line, is_removed_line.
  destruct line as [|c line]; [discriminate|].
  destruct c as [[] [] [] [] [] [] [] []]; simpl;
    first [discriminate | reflexivity].
Qed.

(** The loop over the diff lines collects the two groups of entries. *)
Lemma entries_of_cons (sign : string) (keep : string -> bool)
  (line : string) (lines : list string) :
  entries_of sign keep (line :: lines)
  = (entries_of sign keep [line] ++ entries_of sign keep lines)%list.
Proof.
  unfold entries_of; cbn [filter].
  destruct (keep line); cbn [filter map app]; [|reflexivity].
  now destruct (_is_important_line (strip (drop 1 line))).
Qed.

Lemma scan_line_entries (line : string) (additions deletions : list string) :
  scan_line (additions, deletions) line
  = ((additions ++ entries_of "+ " is_added_line [line])%list,
     (deletions ++ entries_of "- " is_removed_line [line])%list).
Proof.
  unfold scan_line, entries_of; cbn [filter].
  destruct (is_added_line line) eqn:Ea.
  - rewrite (added_not_removed line Ea); cbn [filter map].
    destruct (_is_important_line (strip (drop 1 line))); cbn [filter map];
      now rewrite !app_nil_r.
  - destruct (is_removed_line line); cbn [filter map];
      [destruct (_is_important_line (strip (drop 1 line))); cbn [filter map]|];
      now rewrite !app_nil_r.
Qed.

Lemma scan_lines (lines additions deletions : list string) :
  fold_left scan_line lines (additions, deletions)
  = ((additions ++ entries_of "+ " is_added_line lines)%list,
     (deletions ++ entries_of "- " is_removed_line lines)%list).
Proof.
  revert additions deletions.
  induction lines as [|line lines IH]; intros additions deletions.
  - simpl. unfold entries_of; simpl. now rewrite !app_nil_r.
  - cbn [fold_left]. rewrite scan_line_entries, IH.
    rewrite (entries_of_cons "+ " _ line lines).
    rewrite (entries_of_cons "- " _ line lines).
    now rewrite !app_assoc.
Qed.

Lemma max_lines_half_positive (level : string) : 1 <= max_lines level / 2.
Proof.
  unfold max_lines. destruct (level =? ReviewLevel.DETAILED); simpl; lia.
Qed.

Lemma labelled_firstn (label : string) (n : nat) (entries : list string) :
  1 <= n ->
  match entries with
  | [] => []
  | _ => label :: firstn n entries
  end = labelled label (firstn n entries).
Proof.
  intro H. destruct entries as [|e entries]; [now rewrite firstn_nil|].
  destruct n as [|n]; [lia | reflexivity].
Qed.

(** The text [_compress_diff_content] gives for a file that is not new. *)
Lemma compress_diff_content_modified (diff level change_type : string) :
  change_type <> "A" ->
  _compress_diff_content diff level change_type
  = join nl (firstn 30 (modified_body_lines level diff)).
Proof.
  intro H. apply String.eqb_neq in H.
  unfold _compress_diff_content, modified_body_lines. rewrite H.
  rewrite scan_lines; cbn [app].
  change (entries_of "- " is_removed_line (split nl diff))
    with (removed_entries diff).
  change (entries_of "+ " is_added_line (split nl diff))
    with (added_entries diff).
  pose proof (max_lines_half_positive level) as Hpos.
  rewrite <- (labelled_firstn "제거됨:" _ (removed_entries diff) Hpos).
  rewrite <- (labelled_firstn "추가됨:" _ (added_entries diff) Hpos).
  destruct (added_entries diff); [now rewrite app_nil_r | reflexivity].
Qed.

Lemma mem_char_app (c : ascii) (a b : string) :
  mem_char c (a ++ b) = mem_char c a || mem_char c b.
Proof.
  induction a as [|x a IH]; simpl; [reflexivity|].
  now rewrite IH, orb_assoc.
Qed.

Lemma mem_char_take (c : ascii) (n : nat) (s : string) :
  mem_char c s = false -> mem_char c (take n s) = false.
Proof.
  revert s; induction n as [|n IH]; intros [|x s]; simpl; try reflexivity.
  intro H; apply orb_false_iff in H as [E H]. now rewrite E, (IH s H).
Qed.

Lemma mem_char_drop (c : ascii) (n : nat) (s : string) :
  mem_char c s = false -> mem_char c (drop n s) = false.
Proof.
  revert s; induction n as [|n IH]; intros [|x s]; simpl; try tauto.
  intro H; apply orb_false_iff in H as [_ H]. now apply IH.
Qed.

Lemma mem_char_lstrip (c : ascii) (s : string) :
  mem_char c s = false -> mem_char c (lstrip s) = false.
Proof.
  induction s as [|x s IH]; simpl; [reflexivity|].
  intro H. destruct (is_space x); [|exact H].
  apply orb_false_iff in H as [_ H]. now apply IH.
Qed.

Lemma mem_char_rstrip (c : ascii) (s : string) :
  mem_char c s = false -> mem_char c (rstrip s) = false.
Proof.
  induction s as [|x s IH]; simpl; [reflexivity|].
  intro H; apply orb_false_iff in H as [E H]. specialize (IH H).
  destruct (rstrip s) as [|y r].
  - destruct (is_space x); simpl; [reflexivity | now rewrite E].
  - simpl. simpl in IH. now rewrite E, IH.
Qed.

Lemma mem_char_strip (c : ascii) (s : string) :
  mem_char c s = false -> mem_char c (strip s) = false.
Proof. intro H. now apply mem_char_rstrip, mem_char_lstrip. Qed.

(** No line of the body holds a line break. *)
Lemma entries_free (sign : string) (keep : string -> bool) (diff : string) :
  mem_char nl sign = false ->
  Forall (fun entry => mem_char nl entry = false)
         (entries_of sign keep (split nl diff)).
Proof.
  intro Hsign. apply Forall_forall. intros entry Hin.
  apply in_map_iff in Hin as (clean & <- & Hin).
  apply filter_In in Hin as [Hin _].
  apply in_map_iff in Hin as (line & <- & Hin).
  apply filter_In in Hin as [Hin _].
  pose proof (split_pieces_free nl diff) as F.
  rewrite Forall_forall in F. specialize (F line Hin).
  rewrite mem_char_app, Hsign, orb_false_l.
  now apply mem_char_take, mem_char_strip, mem_char_drop.
Qed.

Lemma Forall_prefix {A : Type} (P : A -> Prop) (n : nat) (xs : list A) :
  Forall P xs -> Forall P (firstn n xs).
Proof.
  revert xs; induction n as [|n IH]; intros [|x xs] H; simpl;
    try constructor; inversion H; subst; [assumption | now apply IH].
Qed.

Lemma labelled_free (label : string) (entries : list string) :
  mem_char nl label = false ->
  Forall (fun entry => mem_char nl entry = false) entries ->
  Forall (fun entry => mem_char nl entry = false) (labelled label entries).
Proof.
  intros Hl H. destruct entries; [constructor|]. now constructor.
Qed.

Lemma modified_body_lines_free (level diff : string) :
  Forall (fun entry => mem_char nl entry = false)
         (modified_body_lines level diff).
Proof.
  unfold modified_body_lines. apply Forall_app; split;
    (apply labelled_free; [reflexivity|]); apply Forall_prefix;
    now apply entries_free.
Qed.

(** C6: in smart mode the body of a file that is not new, so of every
    modified or deleted file, is made of the removed lines that pass the
    importance filter, then the added lines that pass it, each group
    below its label and capped at half of [max_lines], which is 20 at the
    detailed level and 10 at every other; the lines are cut at 30, and
    the body has at most 30 lines. *)
Theorem modified_file_body (c : FileChange) (level : string) :
  change_type c <> "A" ->
  _compress_diff_content (diff c) level (change_type c)
  = join nl
      (firstn 30
         (labelled "제거됨:"
            (firstn (max_lines level / 2) (removed_entries (diff c)))
          ++ labelled "추가됨:"
               (firstn (max_lines level / 2) (added_entries (diff c)))))
  /\ max_lines ReviewLevel.DETAILED = 20
  /\ (level <> ReviewLevel.DETAILED -> max_lines level = 10)
  /\ List.length
       (lines_of (_compress_diff_content (diff c) level (change_type c)))
     <= 30
  /\ (diff c <> "" ->
      smart_body level c
      = _compress_diff_content (diff c) level (change_type c) ++ newline).
Proof.
  intro H. pose proof (compress_diff_content_modified (diff c) level _ H) as E.
  split; [exact E|]. split; [reflexivity|]. split; [|split].
  - intro Hl. unfold max_lines. apply String.eqb_neq in Hl. now rewrite Hl.
  - rewrite E. unfold lines_of. apply length_split_join_le; [| |lia].
    + apply Forall_prefix, modified_body_lines_free.
    + apply firstn_le_length.
  - intro Hd. unfold smart_body. apply String.eqb_neq in Hd. now rewrite Hd.
Qed.

Lemma modified_file_body_witness :
  _compress_diff_content (diff Samples.auth_service) "quick"
                         (change_type Samples.auth_service)
  = join nl ["제거됨:"; "- token = old(user)";
             "추가됨:"; "+ token = sign(user)"].
Proof.
  exact (proj1 (modified_file_body Samples.auth_service "quick"
                                   ltac:(discriminate))).
Defined.

End ModifiedBody.

(** ** Sorting by size *)

Section SortedDesc.
Import Py.
Context {A : Type} (key : A -> nat).

Lemma insert_desc_perm (x : A) (xs : list A) :
  Permutation (insert_desc key x xs) (x :: xs).
Proof.
  induction xs as [|y xs IH]; simpl; [reflexivity|].
  destruct (key y <=? key x)%nat; [reflexivity|].
  rewrite IH. apply perm_swap.
Qed.

Lemma sorted_desc_perm (xs : list A) : Permutation (sorted_desc key xs) xs.
Proof.
  induction xs as [|x xs IH]; simpl; [reflexivity|].
  rewrite insert_desc_perm. now constructor.
Qed.

Lemma insert_desc_sorted (x : A) (xs : list A) :
  StronglySorted (falls_by key) xs ->
  StronglySorted (falls_by key) (insert_desc key x xs).
Proof.
  induction xs as [|y xs IH]; intro H; simpl.
  - constructor; constructor.
  - inversion H as [|? ? Hxs Hy]; subst.
    destruct (key y <=? key x)%nat eqn:E.
    + apply Nat.leb_le in E. constructor; [exact H|].
      constructor; [exact E|].
      eapply Forall_impl; [|exact Hy]. unfold falls_by; intros; lia.
    + apply Nat.leb_gt in E. constructor; [now apply IH|].
      eapply Permutation_Forall;
        [symmetry; apply insert_desc_perm|].
      constructor; [unfold falls_by; lia | exact Hy].
Qed.

Lemma sorted_desc_sorted (xs : list A) :
  StronglySorted (falls_by key) (sorted_desc key xs).
Proof.
  induction xs as [|x xs IH]; simpl; [constructor|].
  now apply insert_desc_sorted.
Qed.

(** In a list in falling order, what lies behind a prefix is no larger
    than what lies in it. *)
Lemma sorted_prefix_dominates (n : nat) (xs : list A) :
  StronglySorted (falls_by key) xs ->
  forall s r, In s (firstn n xs) -> In r (skipn n xs) -> key r <= key s.
Proof.
  revert xs; induction n as [|n IH]; intros xs H s r Hs Hr;
    [destruct Hs|].
  destruct xs as [|x xs]; [destruct Hs|].
  inversion H as [|? ? Hxs Hx]; subst. simpl in Hs, Hr.
  destruct Hs as [<-|Hs].
  - rewrite Forall_forall in Hx. apply Hx.
    rewrite <- (firstn_skipn n xs). apply in_or_app; now right.
  - now apply (IH xs).
Qed.

End SortedDesc.

(** ** Grouping by extension *)

Section Grouping.
Import Py DiffCompressor.

Lemma by_type_step_add (d : Dict.t (list FileChange)) (c : FileChange) :
  by_type_step d c = add_to_group (extension (path c)) c d.
Proof.
  unfold by_type_step. generalize (extension (path c)) as ext; intro ext.
  induction d as [|[k v] d IH]; simpl.
  - now rewrite String.eqb_refl.
  - destruct (k =? ext) eqn:E; simpl.
    + now rewrite E.
    + destruct (Dict.mem ext d); simpl; rewrite E.
      * destruct (Dict.get ext d); [now rewrite <- IH|].
        now rewrite <- IH.
      * destruct (Dict.get ext (Dict.set ext [] d)); now rewrite <- IH.
Qed.

Lemma add_to_group_keys (ext k : string) (c : FileChange)
  (d : Dict.t (list FileChange)) :
  In k (map fst (add_to_group ext c d)) <-> k = ext \/ In k (map fst d).
Proof.
  induction d as [|[k' v] d IH]; simpl.
  - intuition congruence.
  - destruct (String.eqb_spec k' ext) as [->|Hne]; simpl.
    + intuition congruence.
    + rewrite IH. tauto.
Qed.

Lemma add_to_group_nodup (ext : string) (c : FileChange)
  (d : Dict.t (list FileChange)) :
  NoDup (map fst d) -> NoDup (map fst (add_to_group ext c d)).
Proof.
  induction d as [|[k v] d IH]; simpl; intro H.
  - constructor; [intros [] | constructor].
  - inversion H as [|? ? Hk Hd]; subst.
    destruct (String.eqb_spec k ext) as [->|Hne]; simpl; [exact H|].
    constructor; [|now apply IH].
    rewrite add_to_group_keys. intros [->|Hin]; [congruence | contradiction].
Qed.

(** An item after the step: the group of [ext] has the file at its end,
    the other groups are as before. *)
Lemma add_to_group_items (ext k : string) (c : FileChange)
  (v : list FileChange) (d : Dict.t (list FileChange)) :
  NoDup (map fst d) ->
  In (k, v) (add_to_group ext c d) ->
  (k = ext /\ ((v = [c] /\ ~ In ext (map fst d))
               \/ exists v0, In (ext, v0) d /\ v = (v0 ++ [c])%list))
  \/ (k <> ext /\ In (k, v) d).
Proof.
  induction d as [|[k' v'] d IH]; simpl; intro Hnd.
  - intros [H|[]]. injection H as <- <-. left; split; [reflexivity|].
    left; split; [reflexivity | tauto].
  - inversion Hnd as [|? ? Hk' Hd]; subst.
    destruct (String.eqb_spec k' ext) as [->|Hne]; simpl.
    + intros [H|H].
      * injection H as <- <-. left; split; [reflexivity|].
        right; exists v'; split; [now left | reflexivity].
      * right; split; [|now right].
        intros ->. apply Hk'. apply in_map_iff.
        exists (ext, v); split; [reflexivity | exact H].
    + intros [H|H].
      * injection H as <- <-. right; split; [exact Hne | now left].
      * destruct (IH Hd H) as [[-> [[-> Hn]|(v0 & Hin & ->)]]|[Hk Hin]].
        -- left; split; [reflexivity|]. left; split; [reflexivity|].
           intros [E|E]; [congruence | contradiction].
        -- left; split; [reflexivity|]. right; exists v0; split;
             [now right | reflexivity].
        -- right; split; [exact Hk | now right].
Qed.

Lemma filter_none {X : Type} (f : X -> bool) (xs : list X) :
  (forall x, In x xs -> f x = false) -> filter f xs = [].
Proof.
  induction xs as [|x xs IH]; intro H; simpl; [reflexivity|].
  rewrite (H x (or_introl eq_refl)). apply IH.
  intros y Hy; apply H; now right.
Qed.

Lemma grouped_step (seen : list FileChange) (c : FileChange)
  (d : Dict.t (list FileChange)) :
  grouped seen d -> grouped (seen ++ [c])%list (by_type_step d c).
Proof.
  intros (Hnd & Hcov & Hit). rewrite by_type_step_add.
  split; [now apply add_to_group_nodup|]. split.
  - intros c' Hin. apply add_to_group_keys.
    apply in_app_or in Hin as [Hin|[<-|[]]]; [right; now apply Hcov | now left].
  - intros k v Hin. rewrite filter_app; simpl.
    apply add_to_group_items in Hin; [|exact Hnd].
    destruct Hin as [[-> [[-> Hn]|(v0 & Hin & ->)]]|[Hk Hin]].
    + rewrite String.eqb_refl. split; [discriminate|].
      rewrite filter_none; [reflexivity|]. intros c' Hc'.
      destruct (String.eqb_spec (extension (path c'))
                                (extension (path c))) as [E|]; [|reflexivity].
      exfalso; apply Hn. rewrite <- E. now apply Hcov.
    + rewrite String.eqb_refl. destruct (Hit _ _ Hin) as [_ ->].
      split; [|reflexivity]. intro E. now apply app_eq_nil in E as [_ E].
    + destruct (Hit _ _ Hin) as [Hv ->].
      replace (extension (path c) =? k) with false
        by (symmetry; apply String.eqb_neq; congruence).
      rewrite app_nil_r. split; [exact Hv | reflexivity].
Qed.

Lemma fold_left_snoc_invariant {S X : Type} (step : S -> X -> S)
  (P : list X -> S -> Prop)
  (Hstep : forall seen x s, P seen s -> P (seen ++ [x])%list (step s x))
  (xs seen : list X) (s : S) :
  P seen s -> P (seen ++ xs)%list (fold_left step xs s).
Proof.
  revert seen s; induction xs as [|x xs IH]; intros seen s H; simpl.
  - now rewrite app_nil_r.
  - replace (seen ++ x :: xs)%list with ((seen ++ [x]) ++ xs)%list
      by (now rewrite <- app_assoc).
    apply IH, Hstep, H.
Qed.

Lemma group_by_type_grouped (changes : list FileChange) :
  grouped changes (group_by_type changes).
Proof.
  apply (fold_left_snoc_invariant by_type_step grouped grouped_step
                                  changes [] Dict.empty).
  split; [constructor|]. split; [intros c []|intros k v []].
Qed.

End Grouping.

(** ** The summary mode *)

Section SummaryMode.
Import Py DiffCompressor.

Lemma fold_left_concat {X : Type} (g : X -> string) (xs : list X)
  (acc : string) :
  fold_left (fun acc x => acc ++ g x) xs acc
  = acc ++ concat_text (map g xs).
Proof.
  revert acc; induction xs as [|x xs IH]; intro acc; simpl.
  - now rewrite sapp_nil_r.
  - now rewrite IH, sapp_assoc.
Qed.

Lemma summary_step_text (summary : string)
  (item : string * list FileChange) :
  summary_step summary item = summary ++ group_text (group_of_item item).
Proof.
  destruct item as [ext files]. unfold summary_step, group_text; simpl.
  now rewrite fold_left_concat, !sum_list_sum, sapp_assoc.
Qed.

Lemma compress_summary_text (changes : list FileChange) :
  _compress_summary changes
  = summary_title
    ++ concat_text
         (map group_text (map group_of_item (group_by_type changes))).
Proof.
  unfold _compress_summary, Dict.items.
  generalize summary_title as acc.
  induction (group_by_type changes) as [|item items IH]; intro acc; simpl.
  - now rewrite sapp_nil_r.
  - now rewrite IH, summary_step_text, sapp_assoc.
Qed.

Lemma two_largest_sorted (files : list FileChange) :
  two_largest files (firstn 2 (sorted_desc change_size files)).
Proof.
  split.
  - rewrite length_firstn.
    now rewrite (Permutation_length (sorted_desc_perm change_size files)).
  - exists (skipn 2 (sorted_desc change_size files)). split.
    + rewrite firstn_skipn. symmetry; apply sorted_desc_perm.
    + apply sorted_prefix_dominates, sorted_desc_sorted.
Qed.

(** The text [_compress_summary] gives is a summary-mode report. *)
Lemma compress_summary_is_summary (changes : list FileChange) :
  summary_mode changes (_compress_summary changes).
Proof.
  destruct (group_by_type_grouped changes) as (Hnd & Hcov & Hit).
  exists (map group_of_item (group_by_type changes)).
  split; [|split; [|split]].
  - rewrite map_map. exact Hnd.
  - intros c Hin. rewrite map_map. now apply Hcov.
  - intros g Hg. apply in_map_iff in Hg as ([k v] & <- & Hin).
    unfold group_of_item; cbn [group_ext group_files group_shown fst snd].
    destruct (Hit k v Hin) as [Hne Hv].
    split; [exact Hne|]. split; [exact Hv|].
    split; [apply firstn_le_length | apply two_largest_sorted].
  - apply compress_summary_text.
Qed.

Lemma summary_mode_head (changes : list FileChange) (report : string) :
  summary_mode changes report -> exists rest, report = String "226" rest.
Proof.
  intros (groups & _ & _ & _ & ->). eexists. reflexivity.
Qed.

Lemma compress_detailed (changes : list FileChange) :
  compress changes ReviewLevel.DETAILED
  = _compress_smart changes ReviewLevel.DETAILED.
Proof.
  unfold compress. rewrite String.eqb_refl.
  change (ReviewLevel.DETAILED =? ReviewLevel.QUICK) with false.
  now rewrite !andb_false_r.
Qed.

(** C1: when more than 500 lines are changed and the level is not the
    detailed one, [compress] gives a summary-mode report: the files by
    extension, aggregate counts for each group, at most the two largest
    files of each.  At the detailed level [compress] gives the text of
    the smart mode, which is no summary-mode report of any change list.
    So it is for the sample of 600 changed lines at the normal and at
    the detailed level. *)
Theorem volume_gating :
  (forall changes level,
      500 < list_sum (map (fun c => insertions c + deletions c) changes) ->
      level <> ReviewLevel.DETAILED ->
      compress changes level = _compress_summary changes
      /\ summary_mode changes (compress changes level))
  /\ (forall changes,
         compress changes ReviewLevel.DETAILED
         = _compress_smart changes ReviewLevel.DETAILED
         /\ forall others,
             ~ summary_mode others (compress changes ReviewLevel.DETAILED))
  /\ (list_sum (map (fun c => insertions c + deletions c)
                    Samples.large_change) = 600
      /\ summary_mode Samples.large_change
                      (compress Samples.large_change ReviewLevel.NORMAL)
      /\ ~ summary_mode Samples.large_change
                        (compress Samples.large_change ReviewLevel.DETAILED)).
Proof.
  assert (Hsum : forall changes level,
             500 < list_sum (map (fun c => insertions c + deletions c)
                                 changes) ->
             level <> ReviewLevel.DETAILED ->
             compress changes level = _compress_summary changes).
  { intros changes level Htotal Hlevel. unfold compress.
    rewrite sum_list_sum.
    apply Nat.ltb_lt in Htotal; apply String.eqb_neq in Hlevel.
    now rewrite Htotal, Hlevel. }
  assert (Hdet : forall changes others,
             ~ summary_mode others (compress changes ReviewLevel.DETAILED)).
  { intros changes others H. apply summary_mode_head in H as [rest H].
    rewrite compress_detailed in H.
    destruct (compress_smart_head ReviewLevel.DETAILED changes)
      as [E|[rest' E]]; rewrite E in H; discriminate. }
  split; [|split; [|split; [|split]]].
  - intros changes level Htotal Hlevel.
    split; [now apply Hsum|]. rewrite Hsum by assumption.
    apply compress_summary_is_summary.
  - intro changes. split; [apply compress_detailed | apply Hdet].
  - reflexivity.
  - rewrite Hsum; [apply compress_summary_is_summary | simpl; lia
                   | discriminate].
  - apply Hdet.
Qed.

Lemma volume_gating_witness :
  compress Samples.large_change "normal"
  = _compress_summary Samples.large_change
  /\ summary_mode Samples.large_change
                  (compress Samples.large_change "normal").
Proof.
  apply (proj1 volume_gating Samples.large_change "normal");
    [simpl; lia | discriminate].
Defined.

(** The summary-mode report of the sample, as text. *)
Example large_change_summary :
  compress Samples.large_change ReviewLevel.NORMAL
  = summary_title
    ++ "📁 .py 파일: 3개 (+430/-120)" ++ newline
    ++ "  • views.py (+200/-50)" ++ newline
    ++ "  • core.py (+150/-50)" ++ newline
    ++ "📁 .md 파일: 1개 (+40/-10)" ++ newline
    ++ "  • README.md (+40/-10)" ++ newline.
Proof. vm_compute. reflexivity. Qed.

End SummaryMode.

(** ** Key changes *)

Section KeyChanges.
Import Py DiffCompressor.

Lemma extract_key_loop_prefix (limit : nat) (lines key_lines : list string) :
  List.length key_lines < Nat.max 1 limit ->
  extract_key_loop limit lines key_lines
  = firstn (Nat.max 1 limit)
           (key_lines ++ entries_of "+ " is_added_line lines).
Proof.
  revert key_lines.
  induction lines as [|line lines IH]; intros key_lines Hlen.
  - cbn [extract_key_loop]. unfold entries_of; cbn [filter map].
    rewrite app_nil_r. symmetry; apply firstn_all2; lia.
  - rewrite (entries_of_cons "+ " _ line lines).
    cbn [extract_key_loop]. unfold entries_of at 1; cbn [filter].
    destruct (is_added_line line); cbn [filter map app]; [|now apply IH].
    destruct (_is_important_line (strip (drop 1 line)));
      cbn [filter map app]; [|now apply IH].
    set (e := "+ " ++ take 100 (strip (drop 1 line))).
    rewrite length_app; cbn [List.length].
    assert (A : (key_lines ++ e :: entries_of "+ " is_added_line lines
                 = (key_lines ++ [e])
                   ++ entries_of "+ " is_added_line lines)%list)
      by (now rewrite <- app_assoc).
    destruct (limit <=? List.length key_lines + 1)%nat eqn:E.
    + apply Nat.leb_le in E. rewrite A.
      replace (Nat.max 1 limit)
        with (List.length (key_lines ++ [e])%list + 0)
        by (rewrite length_app; cbn [List.length]; lia).
      rewrite firstn_app_2. cbn [firstn]. now rewrite app_nil_r.
    + apply Nat.leb_gt in E. rewrite IH, A; [reflexivity|].
      rewrite length_app; cbn [List.length]; lia.
Qed.

Lemma extract_key_changes_firstn (diff : string) (limit : nat) :
  _extract_key_changes diff limit
  = firstn (Nat.max 1 limit) (added_entries diff).
Proof.
  unfold _extract_key_changes, added_entries.
  rewrite extract_key_loop_prefix; [reflexivity | cbn [List.length]; lia].
Qed.

(** X1: [_extract_key_changes] gives the first [limit] added lines that
    pass the importance filter, in the order of the diff; with a limit of
    zero it still gives the first one, since the loop tests the limit
    only after it has appended an entry. *)
Theorem extract_key_changes_prefix (diff : string) (limit : nat) :
  _extract_key_changes diff limit
  = firstn (Nat.max 1 limit) (added_entries diff)
  /\ List.length (_extract_key_changes diff limit) <= Nat.max 1 limit.
Proof.
  split; [apply extract_key_changes_firstn|].
  rewrite extract_key_changes_firstn. apply firstn_le_length.
Qed.

End KeyChanges.

(** ** Smart and minimal mode, file by file *)

Section FileByFile.
Import Py DiffCompressor.

Lemma concat_text_app (xs ys : list string) :
  concat_text (xs ++ ys)%list = concat_text xs ++ concat_text ys.
Proof.
  induction xs as [|x xs IH]; simpl; [reflexivity|].
  now rewrite IH, sapp_assoc.
Qed.

(** X2: at every level but the quick one the smart mode keeps every
    file: its text is the heading and body of each file of the list, in
    order.  At the quick level it is that of the files whose priority is
    not low. *)
Theorem smart_mode_files (changes : list FileChange) (level : string) :
  (level <> ReviewLevel.QUICK ->
   _compress_smart changes level
   = concat_text (map (smart_segment level) changes))
  /\ _compress_smart changes ReviewLevel.QUICK
     = concat_text
         (map (smart_segment ReviewLevel.QUICK)
            (filter (fun c => negb (_get_file_priority (path c) =? "low"))
                    changes)).
Proof.
  split.
  - intro Hl. induction changes as [|c cs IH]; [reflexivity|].
    rewrite compress_smart_cons, IH, smart_step_kept by (now right).
    reflexivity.
  - induction changes as [|c cs IH]; [reflexivity|].
    rewrite compress_smart_cons, IH. cbn [filter].
    destruct (String.eqb_spec (_get_file_priority (path c)) "low") as [E|E].
    + now rewrite smart_step_skipped.
    + rewrite smart_step_kept by (now left). reflexivity.
Qed.

Lemma smart_mode_files_witness :
  _compress_smart [Samples.test_utils; Samples.auth_service] "normal"
  = smart_segment "normal" Samples.test_utils
    ++ smart_segment "normal" Samples.auth_service ++ "".
Proof.
  apply (proj1 (smart_mode_files
                  [Samples.test_utils; Samples.auth_service] "normal")).
  discriminate.
Defined.

Lemma minimal_step_segment (result : string) (c : FileChange) :
  minimal_step result c = result ++ minimal_segment c.
Proof.
  unfold minimal_step, minimal_segment, minimal_block.
  rewrite (extract_key_changes_firstn (diff c) 5).
  change (Nat.max 1 5) with 5.
  change (result ++ newline ++ "• " ++ path c ++ " (" ++ change_type c
          ++ ") +" ++ str_of_nat (insertions c) ++ "/-"
          ++ str_of_nat (deletions c) ++ newline)
    with (result ++ minimal_header c).
  destruct (firstn 5 (added_entries (diff c))) as [|e es].
  - now rewrite sapp_nil_r.
  - rewrite fold_left_concat. now rewrite !sapp_assoc.
Qed.

Lemma compress_minimal_text (changes : list FileChange) :
  _compress_minimal changes
  = minimal_title ++ concat_text (map minimal_segment changes).
Proof.
  unfold _compress_minimal. fold minimal_title.
  generalize minimal_title as acc.
  induction changes as [|c cs IH]; intro acc; simpl.
  - now rewrite sapp_nil_r.
  - now rewrite IH, minimal_step_segment, sapp_assoc.
Qed.

(** X3: the text of the minimal mode is its title and then, for each
    file in order, the heading of the file and a block of the first five
    added lines that pass the importance filter; a file without such a
    line has its heading only. *)
Theorem minimal_mode_files (changes : list FileChange) :
  _compress_minimal changes
  = minimal_title ++ concat_text (map minimal_segment changes)
  /\ Forall (fun c => List.length (firstn 5 (added_entries (diff c))) <= 5
                      /\ (added_entries (diff c) = [] ->
                          minimal_segment c = minimal_header c))
            changes.
Proof.
  split; [apply compress_minimal_text|].
  apply Forall_forall. intros c _. split; [apply firstn_le_length|].
  intro E. unfold minimal_segment. rewrite E, firstn_nil.
  cbn [minimal_block]. apply sapp_nil_r.
Qed.

End FileByFile.

(** ** The mode of a report *)

Section ReportMode.
Import Py DiffCompressor.

Lemma compress_summary_heads (changes : list FileChange) :
  startswith summary_title (_compress_summary changes) = true
  /\ startswith minimal_title (_compress_summary changes) = false.
Proof.
  rewrite compress_summary_text. split; [apply startswith_refl|reflexivity].
Qed.

Lemma compress_minimal_heads (changes : list FileChange) :
  startswith summary_title (_compress_minimal changes) = false
  /\ startswith minimal_title (_compress_minimal changes) = true.
Proof.
  rewrite compress_minimal_text.
  split; [reflexivity | apply startswith_refl].
Qed.

Lemma compress_smart_heads (changes : list FileChange) (level : string) :
  startswith summary_title (_compress_smart changes level) = false
  /\ startswith minimal_title (_compress_smart changes level) = false.
Proof.
  destruct (compress_smart_head level changes) as [E|[rest E]];
    rewrite E; split; reflexivity.
Qed.

(** X4: the head of a report tells its mode.  The report opens with the
    title of the summary mode exactly when more than 500 lines are
    changed and the level is not the detailed one, and with the title of
    the minimal mode exactly when more than 200 and at most 500 lines are
    changed at the quick level; so above 500 lines the quick level gets
    the summary, not the minimal mode. *)
Theorem report_head_tells_mode (changes : list FileChange) (level : string) :
  (startswith summary_title (compress changes level) = true
   <-> 500 < total_changed changes /\ level <> ReviewLevel.DETAILED)
  /\ (startswith minimal_title (compress changes level) = true
      <-> 200 < total_changed changes <= 500
          /\ level = ReviewLevel.QUICK).
Proof.
  unfold compress, total_changed. rewrite sum_list_sum.
  set (total := list_sum _).
  assert (Hdq : ReviewLevel.DETAILED <> ReviewLevel.QUICK) by discriminate.
  destruct (Nat.ltb_spec 500 total) as [H5|H5];
    destruct (String.eqb_spec level ReviewLevel.DETAILED) as [Hd|Hd];
    destruct (Nat.ltb_spec 200 total) as [H2|H2];
    destruct (String.eqb_spec level ReviewLevel.QUICK) as [Hq|Hq];
    cbn [negb andb]; try (exfalso; congruence);
    first
      [ rewrite (proj1 (compress_summary_heads changes)),
                (proj2 (compress_summary_heads changes))
      | rewrite (proj1 (compress_minimal_heads changes)),
                (proj2 (compress_minimal_heads changes))
      | rewrite (proj1 (compress_smart_heads changes level)),
                (proj2 (compress_smart_heads changes level)) ];
    (split; split;
     [ intro H; first [discriminate H | split; first [lia | assumption]]
     | intros [H3 H4];
       first [reflexivity
             | exfalso; first [lia | congruence | now apply H4]]
     | intro H; first [discriminate H | split; first [lia | assumption]]
     | intros [H3 H4];
       first [reflexivity
             | exfalso; first [lia | congruence | now apply H4]] ]).
Qed.

End ReportMode.

(** ** The size of a compressed body *)

Section BodySize.
Import Py DiffCompressor.

Lemma length_sapp (a b : string) :
  String.length (a ++ b) = String.length a + String.length b.
Proof. induction a as [|x a IH]; simpl; [reflexivity | now rewrite IH]. Qed.







End BodySize.

(** ** The groups of the summary as a partition *)

Section Partition.
Import Py DiffCompressor.

Lemma add_to_group_files (ext : string) (c : FileChange)
  (d : Dict.t (list FileChange)) :
  Permutation (concat (map snd (add_to_group ext c d)))
              (c :: concat (map snd d)).
Proof.
  induction d as [|[k v] d IH]; simpl; [reflexivity|].
  destruct (k =? ext); simpl.
  - rewrite <- app_assoc. simpl. apply Permutation_sym, Permutation_middle.
  - rewrite IH. apply Permutation_sym, Permutation_middle.
Qed.

Lemma by_type_step_files (seen : list FileChange) (c : FileChange)
  (d : Dict.t (list FileChange)) :
  Permutation (concat (map snd d)) seen ->
  Permutation (concat (map snd (by_type_step d c))) (seen ++ [c])%list.
Proof.
  intro H. rewrite by_type_step_add, add_to_group_files, H.
  apply Permutation_cons_append.
Qed.

Lemma list_sum_concat_map {X : Type} (f : X -> nat) (xss : list (list X)) :
  list_sum (map f (concat xss))
  = list_sum (map (fun xs => list_sum (map f xs)) xss).
Proof.
  induction xss as [|xs xss IH]; simpl; [reflexivity|].
  now rewrite map_app, list_sum_app, IH.
Qed.

Lemma list_sum_map_perm {X : Type} (f : X -> nat) (xs ys : list X) :
  Permutation xs ys -> list_sum (map f xs) = list_sum (map f ys).
Proof. induction 1; simpl; lia. Qed.

(** X6: the groups of the summary mode are a partition of the change
    list: every file is in one group and no file is in two, so the file
    counts of the groups add up to the number of files, and their
    insertion and deletion totals to the totals of the list. *)
Theorem groups_partition_changes (changes : list FileChange) :
  let groups := map snd (group_by_type changes) in
  Permutation (concat groups) changes
  /\ list_sum (map (@List.length FileChange) groups) = List.length changes
  /\ list_sum (map (fun files => sum insertions files) groups)
     = list_sum (map insertions changes)
  /\ list_sum (map (fun files => sum deletions files) groups)
     = list_sum (map deletions changes).
Proof.
  assert (P : Permutation (concat (map snd (group_by_type changes))) changes).
  { apply (fold_left_snoc_invariant by_type_step
             (fun seen d => Permutation (concat (map snd d)) seen)
             by_type_step_files changes [] Dict.empty).
    apply perm_nil. }
  cbn zeta. split; [exact P|]. split; [|split].
  - rewrite <- (Permutation_length P), length_concat. reflexivity.
  - rewrite <- (list_sum_map_perm insertions _ _ P), list_sum_concat_map.
    f_equal. apply map_ext. intro; apply sum_list_sum.
  - rewrite <- (list_sum_map_perm deletions _ _ P), list_sum_concat_map.
    f_equal. apply map_ext. intro; apply sum_list_sum.
Qed.

End Partition.

(** ** The extension of a path *)

Section Extension.
Import Py DiffCompressor.

Lemma contains_char (c : ascii) (s : string) :
  contains (String c "") s = mem_char c s.
Proof.
  induction s as [|d s IH]; simpl; [reflexivity|].
  rewrite IH, andb_true_r. now rewrite Ascii.eqb_sym.
Qed.

(** Joining the pieces of a text gives the text back. *)
Lemma join_split (sep : ascii) (s : string) : join sep (split sep s) = s.
Proof.
  induction s as [|c s IH]; [reflexivity|]. cbn [split].
  pose proof (split_nonempty sep s) as Hne.
  destruct (Ascii.eqb_spec c sep) as [->|Hc];
    destruct (split sep s) as [|piece rest]; try congruence.
  - change (join sep ("" :: piece :: rest))
      with ("" ++ String sep (join sep (piece :: rest))).
    now rewrite IH.
  - destruct rest as [|p2 rest]; simpl in *; now rewrite <- IH.
Qed.

Lemma join_last (sep : ascii) (parts : list string) :
  parts <> [] ->
  exists pre,
    join sep parts = pre ++ last parts ""
    /\ (2 <= List.length parts -> exists stem, pre = stem ++ String sep "").
Proof.
  induction parts as [|x parts IH]; [congruence|]. intros _.
  destruct parts as [|y parts].
  - exists "". split; [reflexivity | simpl; lia].
  - destruct IH as (pre & E & Hpre); [discriminate|].
    exists (x ++ String sep pre). split.
    + change (join sep (x :: y :: parts))
        with (x ++ String sep (join sep (y :: parts))).
      rewrite E. change (last (x :: y :: parts) "")
        with (last (y :: parts) "").
      now rewrite sapp_assoc.
    + intros _. destruct parts as [|z parts].
      * exists x. simpl in E.
        assert (pre = "") as ->; [|reflexivity].
        clear -E. destruct pre as [|a pre]; [reflexivity|].
        exfalso. assert (L : String.length y
                             = String.length (String a pre ++ y))
          by (now rewrite <- E).
        rewrite length_sapp in L. simpl in L. lia.
      * destruct Hpre as [stem ->]; [simpl; lia|].
        exists (x ++ String sep stem). now rewrite sapp_assoc.
Qed.

Lemma split_of_text_with_sep (sep : ascii) (s : string) :
  mem_char sep s = true -> 2 <= List.length (split sep s).
Proof.
  intro H. pose proof (split_pieces_free sep s) as F.
  pose proof (join_split sep s) as J.
  destruct (split sep s) as [|piece [|p2 rest]] eqn:Es; simpl; try lia.
  - now apply split_nonempty in Es.
  - simpl in J. subst s. inversion F; subst. congruence.
Qed.

Lemma last_in {X : Type} (xs : list X) (d : X) :
  xs <> [] -> In (last xs d) xs.
Proof.
  induction xs as [|x xs IH]; [congruence|]. intros _.
  destruct xs as [|y xs]; [now left|].
  right. apply IH. discriminate.
Qed.

(** X7: the extension under which the summary mode files a path holds
    no dot; it is the text [other] for a path without a dot, and
    otherwise what follows the last dot of the path. *)
Theorem extension_of_path (p : string) :
  mem_char "." (extension p) = false
  /\ (mem_char "." p = false -> extension p = "other")
  /\ (mem_char "." p = true ->
      exists stem, p = stem ++ "." ++ extension p).
Proof.
  unfold extension. rewrite contains_char.
  destruct (mem_char "." p) eqn:E.
  - split; [|split; [discriminate|]].
    + pose proof (split_pieces_free "." p) as F.
      rewrite Forall_forall in F. apply F.
      apply last_in, split_nonempty.
    + intros _. destruct (join_last "." (split "." p))
        as (pre & J & Hpre); [apply split_nonempty|].
      rewrite join_split in J.
      destruct Hpre as [stem ->]; [now apply split_of_text_with_sep|].
      exists stem. rewrite J at 1. now rewrite sapp_assoc.
  - split; [reflexivity|]. split; [reflexivity | discriminate].
Qed.

End Extension.

(** ** Counting changed lines *)

Section Counting.
Import Py DiffCompressor GitAnalyzer.

Lemma count_step_counts (line : string) (a d : nat) :
  count_step (a, d) line
  = (a + List.length (filter is_added_line [line]),
     d + List.length (filter is_removed_line [line])).
Proof.
  unfold count_step. cbn [filter].
  change (startswith "+" line && negb (startswith "+++" line))
    with (is_added_line line).
  change (startswith "-" line && negb (startswith "---" line))
    with (is_removed_line line).
  destruct (is_added_line line) eqn:Ea.
  - rewrite (added_not_removed line Ea). simpl. f_equal; lia.
  - destruct (is_removed_line line); simpl; f_equal; lia.
Qed.

Lemma count_lines (lines : list string) (a d : nat) :
  fold_left count_step lines (a, d)
  = (a + List.length (filter is_added_line lines),
     d + List.length (filter is_removed_line lines)).
Proof.
  revert a d; induction lines as [|line lines IH]; intros a d.
  - simpl. f_equal; lia.
  - cbn [fold_left]. rewrite count_step_counts, IH. cbn [filter].
    destruct (is_added_line line), (is_removed_line line); simpl;
      f_equal; lia.
Qed.

Lemma disjoint_filters {X : Type} (f g : X -> bool) (xs : list X) :
  (forall x, f x = true -> g x = false) ->
  List.length (filter f xs) + List.length (filter g xs) <= List.length xs.
Proof.
  intro H. induction xs as [|x xs IH]; simpl; [lia|].
  destruct (f x) eqn:Ef; [rewrite (H x Ef)|destruct (g x)]; simpl; lia.
Qed.

Lemma length_entries_of (sign : string) (keep : string -> bool)
  (lines : list string) :
  List.length (entries_of sign keep lines) <= List.length (filter keep lines).
Proof.
  unfold entries_of. rewrite length_map.
  etransitivity; [apply filter_length_le|]. now rewrite length_map.
Qed.

Lemma count_changes_filters (diff_text : string) :
  _count_changes diff_text
  = (List.length (filter is_added_line (split nl diff_text)),
     List.length (filter is_removed_line (split nl diff_text))).
Proof. unfold _count_changes. now rewrite count_lines. Qed.

(** X8: [_count_changes] counts the lines of a diff that open with one
    plus or minus sign (not with three): the two counts together are at
    most the number of lines, and the compressor, which selects lines by
    the same test, has no more added or removed entries than were
    counted. *)
Theorem count_changes_counts (diff_text : string) :
  _count_changes diff_text
  = (List.length (filter is_added_line (split nl diff_text)),
     List.length (filter is_removed_line (split nl diff_text)))
  /\ fst (_count_changes diff_text) + snd (_count_changes diff_text)
     <= List.length (split nl diff_text)
  /\ List.length (added_entries diff_text) <= fst (_count_changes diff_text)
  /\ List.length (removed_entries diff_text)
     <= snd (_count_changes diff_text).
Proof.
  split; [apply count_changes_filters|].
  rewrite count_changes_filters. cbn [fst snd]. split; [|split].
  - apply disjoint_filters, added_not_removed.
  - apply length_entries_of.
  - apply length_entries_of.
Qed.

Lemma filter_added_of_plus (lines : list string) :
  filter is_added_line (map (fun line => "+" ++ line) lines)
  = map (fun line => "+" ++ line)
        (filter (fun line => negb (startswith "++" line)) lines).
Proof.
  induction lines as [|line lines IH]; [reflexivity|].
  cbn [map filter]. rewrite IH.
  change (is_added_line ("+" ++ line))
    with (true && negb (startswith "++" line)).
  cbn [andb]. now destruct (startswith "++" line).
Qed.

Lemma filter_removed_of_plus (lines : list string) :
  filter is_removed_line (map (fun line => "+" ++ line) lines) = [].
Proof. induction lines as [|line lines IH]; [reflexivity | exact IH]. Qed.

(** X9: counted by [_count_changes], the body the reader makes for a new
    file has no deletion, and an insertion for each line of the file that
    does not itself open with two plus signs; so the count is never above
    the number of insertions the reader reports for the file, and below
    it when such a line exists. *)
Theorem count_changes_of_new_file_body (content : string) :
  _count_changes (added_diff_text content)
  = (List.length
       (filter (fun line => negb (startswith "++" line))
               (split nl content)), 0)
  /\ fst (_count_changes (added_diff_text content))
     <= List.length (split nl content).
Proof.
  assert (E : _count_changes (added_diff_text content)
              = (List.length
                   (filter (fun line => negb (startswith "++" line))
                           (split nl content)), 0)).
  { rewrite count_changes_filters, added_diff_text_lines.
    now rewrite filter_added_of_plus, filter_removed_of_plus, length_map. }
  split; [exact E|]. rewrite E. apply filter_length_le.
Qed.

End Counting.

(** ** What the reader returns *)

Section ReaderInvariants.
Import Py DiffCompressor GitAnalyzer.

Lemma fold_left_Forall {S X : Type} (step : list S -> X -> list S)
  (P : S -> Prop)
  (Hstep : forall acc x, Forall P acc -> Forall P (step acc x))
  (xs : list X) (acc : list S) :
  Forall P acc -> Forall P (fold_left step xs acc).
Proof.
  revert acc; induction xs as [|x xs IH]; intros acc H; simpl;
    [exact H | now apply IH, Hstep].
Qed.

Lemma Forall_snoc {X : Type} (P : X -> Prop) (xs : list X) (x : X) :
  Forall P xs -> P x -> Forall P (xs ++ [x])%list.
Proof.
  intros H Hx. apply Forall_app; split; [exact H|].
  constructor; [exact Hx | constructor].
Qed.

Lemma added_diff_text_nonempty (content : string) :
  added_diff_text content <> "".
Proof.
  intro E. pose proof (added_diff_text_lines content) as L.
  rewrite E in L. pose proof (split_nonempty nl content) as Hne.
  destruct (split nl content) as [|x xs]; [congruence|]. discriminate L.
Qed.

(** The file change made from the text of a new file. *)
Lemma new_file_change_read (file_path content : string) :
  read_as_new (mkFileChange file_path "A" (List.length (split nl content)) 0
                            (added_diff_text content)).
Proof.
  unfold read_as_new; cbn [change_type deletions insertions diff].
  rewrite added_diff_text_lines, length_map.
  repeat split.
  - pose proof (split_nonempty nl content).
    destruct (split nl content); [congruence | simpl; lia].
  - apply added_diff_text_nonempty.
  - apply forallb_forall. intros x Hx.
    apply in_map_iff in Hx as [line [<- _]]. reflexivity.
Qed.

Lemma diff_file_change_read (file_path status diff_text : string) :
  status = "M" \/ status = "D" ->
  read_from_diff
    (let '(insertions, deletions) := _count_changes diff_text in
     mkFileChange file_path status insertions deletions diff_text).
Proof.
  intro H. destruct (_count_changes diff_text) as [i d] eqn:E.
  split; [exact H|]. simpl. now rewrite E.
Qed.


Lemma unstaged_file_step_read (repo : Repo) (changes : list FileChange)
  (item : string * string) :
  Forall well_read changes ->
  Forall well_read (unstaged_file_step repo changes item).
Proof.
  intro H. destruct item as [status file_path]. unfold unstaged_file_step.
  destruct ((status =? "M") || (status =? "D")) eqn:E.
  - destruct (subprocess_diff repo file_path) as [diff_text|]; [|exact H].
    assert (Hs : status = "M" \/ status = "D").
    { apply orb_true_iff in E as [E|E]; apply String.eqb_eq in E; tauto. }
    pose proof (diff_file_change_read file_path status diff_text Hs) as R.
    destruct (_count_changes diff_text) as [i d].
    apply Forall_snoc; [exact H|]. now right.
  - destruct (status =? "A"); [|exact H].
    destruct (read_file repo file_path) as [| |content]; try exact H.
    destruct (content =? ""); [exact H|].
    apply Forall_snoc; [exact H|]. left. apply new_file_change_read.
Qed.

Lemma dict_set_keys {V : Type} (k k' : string) (v : V) (d : Dict.t V) :
  In k (map fst (Dict.set k' v d)) <-> k = k' \/ In k (map fst d).
Proof.
  induction d as [|[k0 v0] d IH]; simpl.
  - intuition congruence.
  - destruct (String.eqb_spec k0 k') as [->|Hne]; simpl.
    + intuition congruence.
    + rewrite IH. tauto.
Qed.

Lemma dict_set_nodup {V : Type} (k : string) (v : V) (d : Dict.t V) :
  NoDup (map fst d) -> NoDup (map fst (Dict.set k v d)).
Proof.
  induction d as [|[k0 v0] d IH]; simpl; intro H.
  - constructor; [intros [] | constructor].
  - inversion H as [|? ? Hk Hd]; subst.
    destruct (String.eqb_spec k0 k) as [->|Hne]; simpl; [exact H|].
    constructor; [|now apply IH].
    rewrite dict_set_keys. intros [->|Hin]; [congruence | contradiction].
Qed.





(** X11: every file change [get_unstaged_changes] returns is of one of
    the same two kinds.  The two readers part on an empty new file: the
    unstaged one passes it over, the staged one reports it with one
    insertion and a body of a lone plus sign. *)
Theorem unstaged_changes_well_read (repo : Repo) :
  Forall well_read (get_unstaged_changes repo)
  /\ (forall changes file_path,
         read_file repo file_path = Content "" ->
         unstaged_file_step repo changes ("A", file_path) = changes
         /\ staged_file_step repo changes (file_path, "A")
            = (changes ++ [mkFileChange file_path "A" 1 0 "+"])%list).
Proof.
  split.
  - unfold get_unstaged_changes.
    destruct (subprocess_status repo); [|constructor].
    apply fold_left_Forall; [apply unstaged_file_step_read | constructor].
  - intros changes file_path H.
    unfold unstaged_file_step, staged_file_step. cbn [orb String.eqb].
    rewrite H. split; reflexivity.
Qed.

Lemma unstaged_changes_well_read_witness :
  unstaged_file_step MoreSamples.empty_file_tree [] ("A", "empty.py") = []
  /\ staged_file_step MoreSamples.empty_file_tree [] ("empty.py", "A")
     = [mkFileChange "empty.py" "A" 1 0 "+"].
Proof.
  exact (proj2 (unstaged_changes_well_read MoreSamples.empty_file_tree)
               [] "empty.py" eq_refl).
Defined.

Lemma untracked_step_read (repo : Repo) (unstaged : list FileChange)
  (file_path : string) :
  In file_path (untracked_files repo) ->
  untracked_step repo unstaged file_path = unstaged
  \/ exists fc, untracked_step repo unstaged file_path
                = (unstaged ++ [fc])%list
                /\ read_untracked repo fc.
Proof.
  intro Hin. unfold untracked_step.
  destruct (read_file repo file_path) as [| |content] eqn:E;
    [now left | now left|].
  right. eexists; split; [reflexivity|].
  unfold read_untracked; cbn [change_type deletions path diff insertions].
  repeat split; assumption.
Qed.

Lemma untracked_fold (repo : Repo) (paths : list string)
  (unstaged : list FileChange) :
  (forall p, In p paths -> In p (untracked_files repo)) ->
  exists extra,
    fold_left (untracked_step repo) paths unstaged
    = (unstaged ++ extra)%list
    /\ Forall (read_untracked repo) extra
    /\ List.length extra <= List.length paths.
Proof.
  revert unstaged; induction paths as [|p paths IH]; intros unstaged H.
  - exists []. simpl. rewrite app_nil_r. repeat split; [constructor | lia].
  - cbn [fold_left].
    assert (Hp : In p (untracked_files repo)) by (apply H; now left).
    assert (H' : forall q, In q paths -> In q (untracked_files repo))
      by (intros q Hq; apply H; now right).
    destruct (untracked_step_read repo unstaged p Hp) as [E|(fc & E & R)];
      rewrite E.
    + destruct (IH unstaged H') as (extra & E' & F & L).
      exists extra. repeat split; [exact E' | exact F | simpl; lia].
    + destruct (IH (unstaged ++ [fc])%list H') as (extra & E' & F & L).
      exists (fc :: extra). rewrite E', <- app_assoc.
      repeat split; [now constructor | simpl; lia].
Qed.

(** X12: asking for the untracked files changes nothing but the end of
    the unstaged partition: the staged files are the same, the unstaged
    files are those found without the untracked ones followed by at most
    one file change for each untracked path, each of them a new file
    without deletions whose body is the text of the file as it is; and
    the totals grow by what these add. *)
Theorem untracked_files_are_appended (repo : Repo) :
  let without := get_all_changes repo false in
  let with_untracked := get_all_changes repo true in
  staged_files with_untracked = staged_files without
  /\ exists extra,
       unstaged_files with_untracked
       = (unstaged_files without ++ extra)%list
       /\ Forall (read_untracked repo) extra
       /\ List.length extra <= List.length (untracked_files repo)
       /\ total_files with_untracked
          = total_files without + List.length extra
       /\ total_insertions with_untracked
          = total_insertions without + list_sum (map insertions extra)
       /\ total_deletions with_untracked = total_deletions without.
Proof.
  cbn zeta. unfold get_all_changes.
  cbn [staged_files unstaged_files total_files total_insertions
       total_deletions].
  split; [reflexivity|].
  destruct (untracked_fold repo (get_untracked_files repo)
              (get_unstaged_changes repo)) as (extra & E & F & L);
    [now intros|].
  exists extra. rewrite E. split; [reflexivity|]. split; [exact F|].
  split; [exact L|]. rewrite !sum_list_sum, !length_app, !map_app,
    !list_sum_app. repeat split; try lia.
  assert (Z : list_sum (map deletions extra) = 0).
  { clear -F. induction F as [|fc extra (_ & Hd & _) _ IH]; simpl;
      [reflexivity | lia]. }
  lia.
Qed.

End ReaderInvariants.

(** ** The restriction to named files *)

Section SelectFiles.
Import Py GitAnalyzer AutoCommit.

Lemma filter_twice {X : Type} (f : X -> bool) (xs : list X) :
  filter f (filter f xs) = filter f xs.
Proof.
  induction xs as [|x xs IH]; simpl; [reflexivity|].
  destruct (f x) eqn:E; simpl; [now rewrite E, IH | exact IH].
Qed.

Lemma list_sum_filter_le {X : Type} (g : X -> nat) (f : X -> bool)
  (xs : list X) :
  list_sum (map g (filter f xs)) <= list_sum (map g xs).
Proof.
  induction xs as [|x xs IH]; simpl; [lia|].
  destruct (f x); simpl; lia.
Qed.

Lemma select_files_facts (repo : Repo) (include_untracked : bool)
  (files : list string) :
  let selected :=
    select_files files (get_all_changes repo include_untracked) in
  Forall (fun fc => In (path fc) files)
         (staged_files selected ++ unstaged_files selected).
Proof.
  cbn zeta. unfold select_files; cbn [staged_files unstaged_files].
  apply Forall_app; split; apply Forall_forall; intros fc Hin;
    apply filter_In in Hin as [_ Hk];
    apply existsb_exists in Hk as (p & Hp & E);
    apply String.eqb_eq in E; now rewrite E.
Qed.

(** X13: restricting a change set of the reader to named files keeps
    only files that are named, in their order; doing it twice is doing
    it once; the file count does not grow, and the insertion and
    deletion totals, which are not computed anew, are never below what
    the files kept add up to. *)
Theorem select_files_properties (repo : Repo) (include_untracked : bool)
  (files : list string) :
  let changes := get_all_changes repo include_untracked in
  let selected := select_files files changes in
  let kept := (staged_files selected ++ unstaged_files selected)%list in
  select_files files selected = selected
  /\ Forall (fun fc => In (path fc) files) kept
  /\ total_files selected <= total_files changes
  /\ list_sum (map insertions kept) <= total_insertions selected
  /\ list_sum (map deletions kept) <= total_deletions selected.
Proof.
  cbn zeta.
  destruct (get_all_changes_totals repo include_untracked) as (Hi & Hd & Hf).
  cbn zeta in Hi, Hd, Hf.
  set (changes := get_all_changes repo include_untracked) in *.
  unfold select_files;
    cbn [staged_files unstaged_files total_files total_insertions
         total_deletions].
  set (keep := fun f : FileChange => existsb (String.eqb (path f)) files).
  split; [now rewrite !filter_twice|]. split; [|split; [|split]].
  - apply (select_files_facts repo include_untracked files).
  - rewrite Hf.
    pose proof (filter_length_le keep (staged_files changes)).
    pose proof (filter_length_le keep (unstaged_files changes)). lia.
  - rewrite Hi, !map_app, !list_sum_app.
    pose proof (list_sum_filter_le insertions keep (staged_files changes)).
    pose proof (list_sum_filter_le insertions keep (unstaged_files changes)).
    lia.
  - rewrite Hd, !map_app, !list_sum_app.
    pose proof (list_sum_filter_le deletions keep (staged_files changes)).
    pose proof (list_sum_filter_le deletions keep (unstaged_files changes)).
    lia.
Qed.

(** X14: when the opening part of [main] goes on with a change set, the
    repository was opened and has changes, the change set holds at least
    one file, and with the option for named files every file in it is
    one of those named. *)
Theorem read_changes_continues_with_files
  (git_Repo : string -> RepoOpen) (has_changes : Repo -> bool)
  (staged_only : bool) (files : list string) (changes : GitChanges) :
  read_changes git_Repo has_changes staged_only files = Continue changes ->
  (exists repo, git_Repo "." = Opened repo /\ has_changes repo = true)
  /\ (staged_files changes ++ unstaged_files changes)%list <> []
  /\ (files <> [] ->
      Forall (fun fc => In (path fc) files)
             (staged_files changes ++ unstaged_files changes)).
Proof.
  unfold read_changes, __init__. cbn [path_or_dot].
  destruct (git_Repo ".") as [repo| |message]; try discriminate.
  destruct (has_changes repo) eqn:Hc; cbn [negb]; [|discriminate].
  set (all := get_all_changes repo (negb staged_only)).
  set (chosen := match files with [] => all | _ => select_files files all end).
  destruct (Nat.eqb_spec (total_files chosen) 0) as [|Hn]; [discriminate|].
  intro E; injection E as <-.
  split; [now exists repo|].
  assert (Hlen : total_files chosen
                 = List.length (staged_files chosen ++ unstaged_files chosen)).
  { rewrite length_app. unfold chosen. destruct files.
    - apply (get_all_changes_totals repo (negb staged_only)).
    - reflexivity. }
  split.
  - intro E. rewrite E in Hlen. simpl in Hlen. congruence.
  - intro Hf. unfold chosen. destruct files as [|f files]; [congruence|].
    apply (select_files_facts repo (negb staged_only) (f :: files)).
Qed.

Lemma read_changes_continues_with_files_witness :
  exists repo,
    OrchestratorSamples.open_two_staged "." = Opened repo
    /\ (fun _ : Repo => true) repo = true.
Proof.
  exact (proj1 (read_changes_continues_with_files
                  OrchestratorSamples.open_two_staged (fun _ => true)
                  true ["a.py"]
                  (select_files ["a.py"]
                     (get_all_changes Samples.two_staged false))
                  eq_refl)).
Defined.

End SelectFiles.

(** ** Merging configurations *)

Section MergeConfigs.
Import ConfigManager.
Context {Leaf : Type}.

Lemma merge_with_loop (items : list (string * Value Leaf))
  (default : Dict.t (Value Leaf)) :
  merge_with (VDict items) default = merge_loop items default.
Proof.
  revert default; induction items as [|[key value] rest IH]; intro default;
    [reflexivity|].
  cbn [merge_loop]. rewrite <- IH. reflexivity.
Qed.

Lemma dict_get_set_same {V : Type} (k : string) (v : V) (d : Dict.t V) :
  Dict.get k (Dict.set k v d) = Some v.
Proof.
  induction d as [|[k0 v0] d IH]; simpl.
  - now rewrite String.eqb_refl.
  - destruct (k0 =? k) eqn:E; simpl; rewrite E; [reflexivity | exact IH].
Qed.

Lemma dict_get_set_other {V : Type} (k k' : string) (v : V) (d : Dict.t V) :
  k' <> k -> Dict.get k (Dict.set k' v d) = Dict.get k d.
Proof.
  intro Hne. induction d as [|[k0 v0] d IH]; simpl.
  - now apply String.eqb_neq in Hne as ->.
  - destruct (String.eqb_spec k0 k') as [->|H0]; simpl.
    + now apply String.eqb_neq in Hne as ->.
    + now rewrite IH.
Qed.

Lemma dict_get_absent {V : Type} (k : string) (d : Dict.t V) :
  ~ In k (map fst d) -> Dict.get k d = None.
Proof.
  induction d as [|[k0 v0] d IH]; simpl; [reflexivity|]. intro H.
  destruct (String.eqb_spec k0 k) as [->|Hne]; [tauto|].
  apply IH. tauto.
Qed.

Lemma merge_step_get (result : Dict.t (Value Leaf)) (key k : string)
  (value : Value Leaf) :
  Dict.get k (merge_step result key value)
  = if key =? k then Some (merged_value (Dict.get key result) value)
    else Dict.get k result.
Proof.
  unfold merge_step, merged_value.
  destruct (String.eqb_spec key k) as [->|Hne].
  - destruct (Dict.get k result) as [[x|d]|]; destruct value as [y|o];
      apply dict_get_set_same.
  - destruct (Dict.get key result) as [[x|d]|]; destruct value as [y|o];
      now apply dict_get_set_other.
Qed.

(** What the merged configuration holds under a key. *)
Lemma merge_lookup (default override : Dict.t (Value Leaf)) (k : string) :
  NoDup (map fst override) ->
  Dict.get k (_merge_configs default override)
  = match Dict.get k override with
    | Some value => Some (merged_value (Dict.get k default) value)
    | None => Dict.get k default
    end.
Proof.
  unfold _merge_configs. rewrite merge_with_loop.
  revert default.
  induction override as [|[key value] rest IH]; intros default Hnd;
    [reflexivity|].
  inversion Hnd as [|? ? Hkey Hrest]; subst.
  cbn [merge_loop Dict.get]. rewrite (IH _ Hrest), merge_step_get.
  destruct (String.eqb_spec key k) as [->|Hne].
  - now rewrite (dict_get_absent k rest Hkey).
  - reflexivity.
Qed.

Lemma merge_step_keys (result : Dict.t (Value Leaf)) (key k : string)
  (value : Value Leaf) :
  In k (map fst (merge_step result key value))
  <-> k = key \/ In k (map fst result).
Proof.
  unfold merge_step.
  destruct (Dict.get key result) as [[x|d]|]; destruct value as [y|o];
    apply dict_set_keys.
Qed.

Lemma merge_step_nodup (result : Dict.t (Value Leaf)) (key : string)
  (value : Value Leaf) :
  NoDup (map fst result) -> NoDup (map fst (merge_step result key value)).
Proof.
  unfold merge_step.
  destruct (Dict.get key result) as [[x|d]|]; destruct value as [y|o];
    apply dict_set_nodup.
Qed.

(** X15: merging an override into the defaults, key by key: under a key
    of the override lies the override's value, or the merge of the two
    values when both are dictionaries; under any other key lies what the
    defaults hold.  (The keys of the override are distinct, as in every
    dictionary.) *)
Theorem merge_configs_lookup (default override : Dict.t (Value Leaf))
  (k : string) :
  NoDup (map fst override) ->
  (forall value,
      Dict.get k override = Some value ->
      Dict.get k (_merge_configs default override)
      = Some (merged_value (Dict.get k default) value))
  /\ (Dict.get k override = None ->
      Dict.get k (_merge_configs default override) = Dict.get k default).
Proof.
  intro Hnd. pose proof (merge_lookup default override k Hnd) as E.
  split; [intros value H | intro H]; now rewrite H in E.
Qed.

(** X16: merging loses no key and invents none: the keys of the merged
    configuration are those of the defaults and those of the override,
    and each occurs once when each key of the defaults does. *)
Theorem merge_configs_keys (default override : Dict.t (Value Leaf)) :
  (forall k,
      In k (map fst (_merge_configs default override))
      <-> In k (map fst default) \/ In k (map fst override))
  /\ (NoDup (map fst default) ->
      NoDup (map fst (_merge_configs default override))).
Proof.
  unfold _merge_configs. rewrite merge_with_loop. revert default.
  induction override as [|[key value] rest IH]; intro default.
  - split; [intro k; simpl; tauto | tauto].
  - cbn [merge_loop]. destruct (IH (merge_step default key value)) as [Hk Hn].
    split.
    + intro k. rewrite Hk, merge_step_keys. simpl. intuition congruence.
    + intro H. now apply Hn, merge_step_nodup.
Qed.

End MergeConfigs.

Section ConfigLookup.
Import Py ConfigManager.

Lemma merge_configs_lookup_witness :
  Dict.get "ai"
    (_merge_configs ConfigSamples.defaults ConfigSamples.from_file)
  = Some (VDict [("model", VLeaf "gpt-4o"); ("max_tokens", VLeaf "500")]).
Proof.
  refine (proj1 (merge_configs_lookup ConfigSamples.defaults
                   ConfigSamples.from_file "ai" _) _ eq_refl).
  repeat constructor; simpl; intuition discriminate.
Defined.

Context {Leaf : Type}.

Lemma keys_once_get (items : list (string * Value Leaf)) (k : string)
  (v : Value Leaf) :
  keys_once (VDict items) -> Dict.get k items = Some v -> keys_once v.
Proof.
  intros [_ H]. induction items as [|[k0 v0] items IH]; simpl;
    [discriminate|].
  destruct H as [H0 H]. destruct (k0 =? k).
  - intro E; injection E as <-. exact H0.
  - now apply IH.
Qed.

Lemma override_leaf_wins (keys : list string)
  (default override : Dict.t (Value Leaf)) (x : Leaf) :
  keys_once (VDict override) ->
  get_loop keys (VDict override) = Some (VLeaf x) ->
  get_loop keys (VDict (_merge_configs default override)) = Some (VLeaf x).
Proof.
  revert default override.
  induction keys as [|k keys IH]; intros default override Hw H;
    [discriminate|].
  cbn [get_loop] in *.
  destruct (Dict.get k override) as [v|] eqn:Ev; [|discriminate].
  rewrite (merge_lookup default override k (proj1 Hw)), Ev.
  pose proof (keys_once_get override k v Hw Ev) as Hv.
  unfold merged_value.
  destruct v as [y|o]; [now destruct (Dict.get k default) as [[?|?]|]|].
  destruct (Dict.get k default) as [[y|d]|]; try exact H.
  now apply IH.
Qed.

(** X17: a setting of the override is the setting of the merged
    configuration: when the dotted key leads to a value that is no
    dictionary in the override, [get] finds that value in the merged
    configuration, whatever the defaults hold.  (Each dictionary of the
    override has each key once.) *)
Theorem get_finds_override (default override : Dict.t (Value Leaf))
  (key : string) (x : Leaf) (fallback : Value Leaf) :
  keys_once (VDict override) ->
  get_loop (split "." key) (VDict override) = Some (VLeaf x) ->
  get (_merge_configs default override) key fallback = VLeaf x.
Proof.
  intros Hw H. unfold get.
  now rewrite (override_leaf_wins _ default override x Hw H).
Qed.

End ConfigLookup.

Section ConfigLookupWitness.
Import Py ConfigManager.

Lemma get_finds_override_witness :
  get (_merge_configs ConfigSamples.defaults ConfigSamples.from_file)
      "ai.model" (VLeaf "none")
  = VLeaf "gpt-4o".
Proof.
  apply get_finds_override; [|reflexivity].
  simpl. repeat split; repeat constructor; simpl; intuition discriminate.
Defined.

End ConfigLookupWitness.

(** ** The provider and its key *)

Section ApiKey.
Import Py ConfigManager.




End ApiKey.

(** ** What the summary mode reads *)

Section SummaryReads.
Import Py DiffCompressor.

Lemma add_to_group_counts_only (ext : string) (c : FileChange)
  (d : Dict.t (list FileChange)) :
  add_to_group ext (counts_only c) (erase_items d)
  = erase_items (add_to_group ext c d).
Proof.
  induction d as [|[k v] d IH]; [reflexivity|]. simpl.
  destruct (k =? ext); simpl.
  - now rewrite map_app.
  - now rewrite IH.
Qed.

Lemma group_by_type_counts_only (changes : list FileChange)
  (d : Dict.t (list FileChange)) :
  fold_left by_type_step (map counts_only changes) (erase_items d)
  = erase_items (fold_left by_type_step changes d).
Proof.
  revert d; induction changes as [|c cs IH]; intro d; [reflexivity|].
  cbn [map fold_left]. rewrite <- IH. f_equal.
  rewrite !by_type_step_add. apply add_to_group_counts_only.
Qed.

Lemma insert_desc_map {X : Type} (key : X -> nat) (f : X -> X)
  (Hkey : forall x, key (f x) = key x) (x : X) (xs : list X) :
  insert_desc key (f x) (map f xs) = map f (insert_desc key x xs).
Proof.
  induction xs as [|y xs IH]; [reflexivity|]. simpl.
  rewrite !Hkey. destruct (key y <=? key x)%nat; [reflexivity|].
  simpl. now rewrite IH.
Qed.

Lemma sorted_desc_map {X : Type} (key : X -> nat) (f : X -> X)
  (Hkey : forall x, key (f x) = key x) (xs : list X) :
  sorted_desc key (map f xs) = map f (sorted_desc key xs).
Proof.
  induction xs as [|x xs IH]; [reflexivity|]. simpl.
  now rewrite IH, insert_desc_map.
Qed.

Lemma group_text_counts_only (item : string * list FileChange) :
  group_text (group_of_item (fst item, map counts_only (snd item)))
  = group_text (group_of_item item).
Proof.
  destruct item as [k v]. unfold group_text, group_of_item.
  cbn [fst snd group_ext group_files group_shown].
  rewrite length_map, !map_map. cbn [counts_only insertions deletions].
  f_equal. f_equal.
  rewrite (sorted_desc_map change_size counts_only) by reflexivity.
  rewrite firstn_map, map_map. reflexivity.
Qed.

Lemma compress_summary_counts_only (changes : list FileChange) :
  _compress_summary (map counts_only changes) = _compress_summary changes.
Proof.
  rewrite !compress_summary_text. f_equal. f_equal.
  unfold group_by_type.
  change Dict.empty with (erase_items Dict.empty) at 1.
  rewrite group_by_type_counts_only. unfold erase_items.
  rewrite !map_map. apply map_ext. intro item.
  apply group_text_counts_only.
Qed.

Lemma same_counts_erased (cs1 cs2 : list FileChange) :
  Forall2 same_counts cs1 cs2 ->
  map counts_only cs1 = map counts_only cs2.
Proof.
  induction 1 as [|a b cs1 cs2 (Hp & Hi & Hd) _ IH]; [reflexivity|].
  simpl. unfold counts_only at 1 3. now rewrite Hp, Hi, Hd, IH.
Qed.

(** X20: the summary mode reads the path and the two counts of each
    file and nothing else: change lists that agree on these, file by
    file, have the same summary, whatever their diff texts and change
    types are; so above 500 changed lines, at a level other than the
    detailed one, the report does not depend on any diff text. *)
Theorem summary_ignores_diff_text (cs1 cs2 : list FileChange) :
  Forall2 same_counts cs1 cs2 ->
  _compress_summary cs1 = _compress_summary cs2
  /\ forall level,
       500 < total_changed cs1 -> level <> ReviewLevel.DETAILED ->
       compress cs1 level = compress cs2 level.
Proof.
  intro H.
  assert (E : _compress_summary cs1 = _compress_summary cs2).
  { rewrite <- (compress_summary_counts_only cs1),
            <- (compress_summary_counts_only cs2).
    now rewrite (same_counts_erased cs1 cs2 H). }
  split; [exact E|]. intros level Ht Hl.
  assert (T : total_changed cs2 = total_changed cs1).
  { unfold total_changed. clear -H.
    induction H as [|a b cs1 cs2 (Hp & Hi & Hd) _ IH]; [reflexivity|].
    simpl. rewrite IH, Hi, Hd. reflexivity. }
  unfold compress. rewrite !sum_list_sum. fold (total_changed cs1).
  fold (total_changed cs2). rewrite T.
  apply Nat.ltb_lt in Ht. apply String.eqb_neq in Hl.
  now rewrite Ht, Hl.
Qed.

Lemma summary_ignores_diff_text_witness :
  _compress_summary Samples.large_change
  = _compress_summary large_change_rewritten.
Proof.
  apply (summary_ignores_diff_text Samples.large_change
                                   large_change_rewritten).
  repeat constructor.
Defined.

End SummaryReads.

(** ** The commit message prompt *)

Section CommitPrompt.
Import Py CommitProvider PromptNotions.

Lemma added_is_not_removed (line : string) :
  is_added line = true -> is_removed line = false.
Proof. exact (added_not_removed line). Qed.

(** The loop over the diff lines, as four selections. *)
Lemma read_lines_found (lines : list string) (found : Found) :
  fold_left read_line lines found
  = mkFound
      (added_lines found ++ map text_of (filter is_added lines))
      (removed_lines found ++ map text_of (filter is_removed lines))
      (new_methods found
       ++ filter is_method (map text_of (filter is_added lines)))
      (endpoints found
       ++ filter is_endpoint (map text_of (filter is_added lines))).
Proof.
  revert found; induction lines as [|line lines IH]; intro found.
  - simpl. rewrite !app_nil_r. now destruct found.
  - cbn [fold_left]. rewrite IH. unfold read_line. cbn [filter].
    fold (text_of line).
    destruct (is_added line) eqn:Ea.
    + rewrite (added_is_not_removed line Ea).
      cbn [added_lines removed_lines new_methods endpoints map filter].
      destruct (is_method (text_of line)), (is_endpoint (text_of line));
        rewrite <- ?app_assoc; reflexivity.
    + destruct (is_removed line);
        cbn [added_lines removed_lines new_methods endpoints map];
        rewrite <- ?app_assoc; reflexivity.
Qed.

Lemma read_diff_found (text : string) :
  read_diff text
  = let lines := firstn 200 (split nl text) in
    mkFound (map text_of (filter is_added lines))
            (map text_of (filter is_removed lines))
            (filter is_method (map text_of (filter is_added lines)))
            (filter is_endpoint (map text_of (filter is_added lines))).
Proof. unfold read_diff. now rewrite read_lines_found. Qed.

Lemma filter_firstn_le {X : Type} (f : X -> bool) (n : nat) (xs : list X) :
  List.length (filter f (firstn n xs)) <= List.length (filter f xs).
Proof.
  revert n; induction xs as [|x xs IH]; intros [|n]; simpl; try lia.
  specialize (IH n). destruct (f x); simpl; lia.
Qed.

(** X21: what the prompt builder finds in a diff.  The added and the
    removed lines are those of the first 200 lines of the diff that open
    with one sign (not with three), in order, without the sign and
    trimmed; the new methods and the endpoints are selected among the
    added lines.  The numbers the prompt announces for them are at most
    the insertions and deletions [_count_changes] counts for the text,
    and are these numbers when the diff has at most 200 lines. *)
Theorem read_diff_finds (text : string) :
  let lines := firstn 200 (split nl text) in
  let found := read_diff text in
  added_lines found = map text_of (filter is_added lines)
  /\ removed_lines found = map text_of (filter is_removed lines)
  /\ new_methods found = filter is_method (added_lines found)
  /\ endpoints found = filter is_endpoint (added_lines found)
  /\ List.length (added_lines found)
     <= fst (GitAnalyzer._count_changes text)
  /\ List.length (removed_lines found)
     <= snd (GitAnalyzer._count_changes text)
  /\ List.length (added_lines found) + List.length (removed_lines found)
     <= 200
  /\ (List.length (split nl text) <= 200 ->
      (List.length (added_lines found), List.length (removed_lines found))
      = GitAnalyzer._count_changes text).
Proof.
  intros lines found. subst found. rewrite read_diff_found.
  fold lines. cbn [added_lines removed_lines new_methods endpoints].
  rewrite count_changes_filters. cbn [fst snd]. rewrite !length_map.
  repeat split.
  - apply (filter_firstn_le is_added).
  - apply (filter_firstn_le is_removed).
  - etransitivity;
      [apply (disjoint_filters is_added is_removed), added_is_not_removed|].
    subst lines. rewrite length_firstn. lia.
  - intro H. subst lines. now rewrite firstn_all2.
Qed.

(** The lines of a text made of whole lines and of more text. *)
Lemma split_join_then (lines : list string) (more : string) :
  lines <> [] ->
  Forall (fun line => mem_char nl line = false) lines ->
  split nl (join nl lines ++ String nl more) = (lines ++ split nl more)%list.
Proof.
  induction lines as [|x lines IH]; [congruence|].
  intros _ H; inversion H as [|? ? Hx Hlines]; subst.
  destruct lines as [|y lines].
  - cbn [join app]. now rewrite (split_free_then _ _ _ Hx).
  - change (join nl (x :: y :: lines))
      with (x ++ String nl (join nl (y :: lines))).
    rewrite sapp_assoc.
    change (String nl (join nl (y :: lines)) ++ String nl more)
      with (String nl (join nl (y :: lines) ++ String nl more)).
    rewrite (split_free_then _ _ _ Hx), IH;
      [reflexivity | discriminate | assumption].
Qed.

Lemma first_lines_of_longer_text (n : nat) (lines : list string)
  (more : string) :
  1 <= n -> n <= List.length lines ->
  Forall (fun line => mem_char nl line = false) lines ->
  firstn n (split nl (join nl lines ++ String nl more))
  = firstn n (split nl (join nl lines)).
Proof.
  intros H1 Hn Hfree.
  assert (Hne : lines <> []) by (destruct lines; simpl in *; [lia|discriminate]).
  rewrite (split_join_then lines more Hne Hfree),
          (split_join nl lines Hne Hfree).
  rewrite firstn_app. replace (n - List.length lines) with 0 by lia.
  cbn [firstn]. apply app_nil_r.
Qed.

(** A file without diff text adds what a diff without signed lines adds. *)
Lemma add_file_reads (prompt : string) (change : FileChange) :
  add_file prompt change
  = add_found
      (prompt ++ newline ++ "File: " ++ path change ++ " ("
       ++ change_symbol (change_type change) ++ ")" ++ newline
       ++ "Stats: +" ++ str_of_nat (insertions change) ++ " / -"
       ++ str_of_nat (deletions change) ++ " lines" ++ newline)
      (read_diff (diff change)).
Proof.
  unfold add_file. rewrite !sapp_assoc.
  destruct (String.eqb_spec (diff change) "") as [->|_]; reflexivity.
Qed.

Lemma add_file_same_lines (prompt : string) (a b : FileChange) :
  path a = path b -> change_type a = change_type b ->
  insertions a = insertions b -> deletions a = deletions b ->
  firstn 200 (split nl (diff a)) = firstn 200 (split nl (diff b)) ->
  add_file prompt a = add_file prompt b.
Proof.
  intros Hp Ht Hi Hd Hl. rewrite !add_file_reads. unfold read_diff.
  now rewrite Hp, Ht, Hi, Hd, Hl.
Qed.

(** X22: the prompt builder reads the first 200 lines of a diff and no
    more.  Whatever text follows the 200th line of the diff of a file,
    the prompt is the one built without that text, for each of the
    three providers (for the OpenAI one, whether it returns or
    raises). *)
Theorem prompt_reads_200_lines (before after : list FileChange)
  (change : FileChange) (lines : list string) (more : string) :
  200 <= List.length lines ->
  Forall (fun line => mem_char nl line = false) lines ->
  let long := with_diff change (join nl lines ++ newline ++ more) in
  let short := with_diff change (join nl lines) in
  _build_prompt (before ++ long :: after)
  = _build_prompt (before ++ short :: after)
  /\ forall (Leaf : Type) (config : Dict.t (ConfigManager.Value Leaf)),
       _build_prompt_openai (before ++ long :: after) config
       = _build_prompt_openai (before ++ short :: after) config.
Proof.
  intros Hn Hfree long short.
  assert (E : _build_prompt (before ++ long :: after)
              = _build_prompt (before ++ short :: after)).
  { unfold _build_prompt. rewrite !fold_left_app. cbn [fold_left].
    rewrite (add_file_same_lines _ long short); try reflexivity.
    apply first_lines_of_longer_text; [lia | lia | assumption]. }
  split; [exact E|]. intros Leaf config. unfold _build_prompt_openai.
  now rewrite E.
Qed.

Lemma prompt_reads_200_lines_witness :
  _build_prompt
    [with_diff PromptSamples.service
       (join nl PromptSamples.assignments ++ newline ++ "+def hidden():")]
  = _build_prompt
      [with_diff PromptSamples.service (join nl PromptSamples.assignments)].
Proof.
  apply (prompt_reads_200_lines [] [] PromptSamples.service
           PromptSamples.assignments "+def hidden():").
  - unfold PromptSamples.assignments. rewrite repeat_length. lia.
  - apply Forall_forall. intros line Hin.
    apply repeat_spec in Hin. now subst.
Defined.

Lemma line_breaks_app (a b : string) :
  line_breaks (a ++ b) = line_breaks a + line_breaks b.
Proof. induction a as [|c a IH]; simpl; [reflexivity | rewrite IH; lia]. Qed.

Lemma line_breaks_free (s : string) :
  mem_char nl s = false -> line_breaks s = 0.
Proof.
  induction s as [|c s IH]; simpl; [reflexivity|].
  intro H; apply orb_false_iff in H as [E H]. now rewrite E, (IH H).
Qed.

Lemma line_breaks_take (n : nat) (s : string) :
  mem_char nl s = false -> line_breaks (take n s) = 0.
Proof. intro H. now apply line_breaks_free, mem_char_take. Qed.

Lemma line_breaks_str_of_nat (n : nat) : line_breaks (str_of_nat n) = 0.
Proof.
  unfold str_of_nat. generalize (Nat.to_uint n) as d.
  induction d; simpl; auto.
Qed.

Lemma line_breaks_change_symbol (t : string) :
  line_breaks (change_symbol t) = 0.
Proof.
  unfold change_symbol.
  destruct (t =? "A"); [reflexivity|]. destruct (t =? "M"); [reflexivity|].
  destruct (t =? "D"); [reflexivity|]. destruct (t =? "R"); reflexivity.
Qed.

(** A loop that lists every entry adds a line for each. *)
Lemma line_breaks_list_entry (sign : string) (width : nat)
  (entries : list string) (prompt : string) :
  mem_char nl sign = false ->
  Forall (fun entry => mem_char nl entry = false) entries ->
  line_breaks (fold_left (list_entry sign width) entries prompt)
  = line_breaks prompt + List.length entries.
Proof.
  intros Hs H. revert prompt.
  induction H as [|entry entries He _ IH]; intro prompt; simpl; [lia|].
  rewrite IH. unfold list_entry. rewrite !line_breaks_app.
  rewrite (line_breaks_free sign Hs), (line_breaks_take width entry He).
  simpl. lia.
Qed.

(** A loop that lists the longer entries adds at most a line for each. *)
Lemma line_breaks_list_shown (sign : string) (width : nat)
  (entries : list string) (prompt : string) :
  mem_char nl sign = false ->
  Forall (fun entry => mem_char nl entry = false) entries ->
  line_breaks prompt
  <= line_breaks (fold_left (list_shown sign width) entries prompt)
  <= line_breaks prompt + List.length entries.
Proof.
  intros Hs H. revert prompt.
  induction H as [|entry entries He _ IH]; intro prompt; simpl; [lia|].
  specialize (IH (list_shown sign width prompt entry)).
  assert (line_breaks prompt
          <= line_breaks (list_shown sign width prompt entry)
          <= line_breaks prompt + 1); [|lia].
  unfold list_shown. destruct (is_shown entry); [|lia].
  rewrite !line_breaks_app.
  rewrite (line_breaks_free sign Hs), (line_breaks_take width entry He).
  simpl. lia.
Qed.

Lemma texts_free (keep : string -> bool) (text : string) :
  Forall (fun entry => mem_char nl entry = false)
         (map text_of (filter keep (firstn 200 (split nl text)))).
Proof.
  apply Forall_forall. intros entry Hin.
  apply in_map_iff in Hin as (line & <- & Hin).
  apply filter_In in Hin as [Hin _].
  pose proof (Forall_prefix _ 200 _ (split_pieces_free nl text)) as F.
  rewrite Forall_forall in F.
  now apply mem_char_strip, mem_char_drop, F.
Qed.

Lemma Forall_filter_of {X : Type} (P : X -> Prop) (f : X -> bool)
  (xs : list X) : Forall P xs -> Forall P (filter f xs).
Proof.
  intro H. apply Forall_forall. intros x Hin.
  apply filter_In in Hin as [Hin _]. rewrite Forall_forall in H. now apply H.
Qed.

Lemma read_diff_free (text : string) : free_of_breaks (read_diff text).
Proof.
  rewrite read_diff_found. unfold free_of_breaks.
  cbn [added_lines removed_lines new_methods endpoints].
  repeat split; try apply Forall_filter_of; apply texts_free.
Qed.

Lemma length_firstn_le {X : Type} (n : nat) (xs : list X) :
  List.length (firstn n xs) <= n.
Proof. rewrite length_firstn. lia. Qed.

(** What a diff adds to the prompt: at most 56 lines. *)
Lemma line_breaks_add_found (prompt : string) (found : Found) :
  free_of_breaks found ->
  line_breaks prompt
  <= line_breaks (add_found prompt found)
  <= line_breaks prompt + 56.
Proof.
  intros (Fa & Fr & Fm & Fe). unfold add_found.
  set (p1 := match new_methods found with [] => _ | _ :: _ => _ end).
  set (p2 := match endpoints found with [] => _ | _ :: _ => _ end).
  assert (B1 : line_breaks prompt <= line_breaks p1
               <= line_breaks prompt + 13).
  { subst p1. destruct (new_methods found) as [|m ms] eqn:E; [lia|].
    rewrite line_breaks_list_entry;
      [|reflexivity | now apply Forall_prefix].
    rewrite !line_breaks_app, line_breaks_str_of_nat.
    pose proof (length_firstn_le 10 (m :: ms)).
    change (line_breaks newline) with 1.
    change (line_breaks "New methods:") with 0.
    change (line_breaks "⚠️  DETECTED ") with 0.
    change (line_breaks
              " NEW METHODS/FUNCTIONS - This is likely a FEAT, not refactor!")
      with 0.
    lia. }
  assert (B2 : line_breaks p1 <= line_breaks p2 <= line_breaks p1 + 9).
  { subst p2. destruct (endpoints found) as [|e es] eqn:E; [lia|].
    rewrite line_breaks_list_entry;
      [|reflexivity | now apply Forall_prefix].
    rewrite !line_breaks_app.
    pose proof (length_firstn_le 8 (e :: es)).
    change (line_breaks newline) with 1.
    change (line_breaks "Detected endpoints/annotations:") with 0.
    lia. }
  clearbody p1 p2.
  assert (B3 : forall p,
             line_breaks p
             <= line_breaks
                  match added_lines found with
                  | [] => p
                  | _ :: _ =>
                      fold_left (list_shown "    + " 120)
                        (firstn 20 (added_lines found))
                        (p ++ "  ADDED ("
                         ++ str_of_nat (List.length (added_lines found))
                         ++ " lines):" ++ newline)
                  end
             <= line_breaks p + 21).
  { intro p. destruct (added_lines found) as [|a l] eqn:E; [lia|].
    pose proof (line_breaks_list_shown "    + " 120 (firstn 20 (a :: l))
                  (p ++ "  ADDED ("
                   ++ str_of_nat (List.length (a :: l))
                   ++ " lines):" ++ newline)
                  eq_refl (Forall_prefix _ 20 _ Fa)) as B.
    rewrite !line_breaks_app, line_breaks_str_of_nat in B.
    pose proof (length_firstn_le 20 (a :: l)).
    change (line_breaks newline) with 1 in B.
    change (line_breaks "  ADDED (") with 0 in B.
    change (line_breaks " lines):") with 0 in B.
    lia. }
  assert (B4 : forall p,
             line_breaks p
             <= line_breaks
                  match removed_lines found with
                  | [] => p
                  | _ :: _ =>
                      fold_left (list_shown "    - " 100)
                        (firstn 10 (removed_lines found))
                        (p ++ "  REMOVED ("
                         ++ str_of_nat (List.length (removed_lines found))
                         ++ " lines):" ++ newline)
                  end
             <= line_breaks p + 11).
  { intro p. destruct (removed_lines found) as [|a l] eqn:E; [lia|].
    pose proof (line_breaks_list_shown "    - " 100 (firstn 10 (a :: l))
                  (p ++ "  REMOVED ("
                   ++ str_of_nat (List.length (a :: l))
                   ++ " lines):" ++ newline)
                  eq_refl (Forall_prefix _ 10 _ Fr)) as B.
    rewrite !line_breaks_app, line_breaks_str_of_nat in B.
    pose proof (length_firstn_le 10 (a :: l)).
    change (line_breaks newline) with 1 in B.
    change (line_breaks "  REMOVED (") with 0 in B.
    change (line_breaks " lines):") with 0 in B.
    lia. }
  set (p3 := p2 ++ newline ++ "Key changes:" ++ newline).
  assert (E3 : line_breaks p3 = line_breaks p2 + 2).
  { subst p3. rewrite !line_breaks_app.
    change (line_breaks newline) with 1.
    change (line_breaks "Key changes:") with 0. lia. }
  assert (B : line_breaks p2
              <= line_breaks
                   match removed_lines found with
                   | [] =>
                       match added_lines found with
                       | [] => p3
                       | _ :: _ =>
                           fold_left (list_shown "    + " 120)
                             (firstn 20 (added_lines found))
                             (p3 ++ "  ADDED ("
                              ++ str_of_nat
                                   (List.length (added_lines found))
                              ++ " lines):" ++ newline)
                       end
                   | _ :: _ =>
                       fold_left (list_shown "    - " 100)
                         (firstn 10 (removed_lines found))
                         (match added_lines found with
                          | [] => p3
                          | _ :: _ =>
                              fold_left (list_shown "    + " 120)
                                (firstn 20 (added_lines found))
                                (p3 ++ "  ADDED ("
                                 ++ str_of_nat
                                      (List.length (added_lines found))
                                 ++ " lines):" ++ newline)
                          end ++ "  REMOVED ("
                          ++ str_of_nat
                               (List.length (removed_lines found))
                          ++ " lines):" ++ newline)
                   end
              <= line_breaks p2 + 34).
  { pose proof (B3 p3) as H3.
    pose proof (B4 match added_lines found with
                   | [] => p3
                   | _ :: _ =>
                       fold_left (list_shown "    + " 120)
                         (firstn 20 (added_lines found))
                         (p3 ++ "  ADDED ("
                          ++ str_of_nat (List.length (added_lines found))
                          ++ " lines):" ++ newline)
                   end) as H4.
    lia. }
  destruct (added_lines found) as [|a l] eqn:Ea;
    destruct (removed_lines found) as [|r rs] eqn:Er;
    [lia | | |]; fold p3; lia.
Qed.

(** What a file adds to the prompt: the two heading lines after an
    empty one, and at most 56 lines for its diff. *)
Lemma line_breaks_add_file (prompt : string) (change : FileChange) :
  line_breaks prompt + 3 + line_breaks (path change)
  <= line_breaks (add_file prompt change)
  <= line_breaks prompt + 59 + line_breaks (path change).
Proof.
  rewrite add_file_reads.
  match goal with
  | |- _ <= line_breaks (add_found ?p ?f) <= _ =>
      pose proof (line_breaks_add_found p f (read_diff_free _)) as B;
      assert (E : line_breaks p
                  = line_breaks prompt + 3 + line_breaks (path change));
      [|lia]
  end.
  rewrite !line_breaks_app, !line_breaks_str_of_nat,
          line_breaks_change_symbol.
  change (line_breaks newline) with 1.
  change (line_breaks "File: ") with 0.
  change (line_breaks " (") with 0.
  change (line_breaks ")") with 0.
  change (line_breaks "Stats: +") with 0.
  change (line_breaks " / -") with 0.
  change (line_breaks " lines") with 0.
  lia.
Qed.

Lemma line_breaks_add_files (changes : list FileChange) (prompt : string) :
  line_breaks prompt + 3 * List.length changes
  + list_sum (map (fun c => line_breaks (path c)) changes)
  <= line_breaks (fold_left add_file changes prompt)
  <= line_breaks prompt + 59 * List.length changes
     + list_sum (map (fun c => line_breaks (path c)) changes).
Proof.
  revert prompt; induction changes as [|change changes IH]; intro prompt.
  - simpl. lia.
  - cbn [fold_left map list_sum fold_right List.length].
    specialize (IH (add_file prompt change)).
    pose proof (line_breaks_add_file prompt change).
    unfold list_sum in IH. lia.
Qed.

(** X23: the size of the commit message prompt depends on the number of
    files, not on the size of their diffs.  The fixed text has 58 line
    breaks; a file adds its two heading lines after an empty line, and at
    most 56 lines more whatever its diff is (the line breaks inside its
    path apart).  This holds for the prompt of each provider, for the
    OpenAI one when it returns. *)
Theorem prompt_lines_per_file (changes : list FileChange) :
  let files := List.length changes in
  let in_paths := Py.sum (fun c => line_breaks (path c)) changes in
  (58 + 3 * files + in_paths
   <= line_breaks (_build_prompt changes)
   <= 58 + 59 * files + in_paths)
  /\ forall (Leaf : Type) (config : Dict.t (ConfigManager.Value Leaf))
        (prompt : string),
       _build_prompt_openai changes config = inr prompt ->
       58 + 3 * files + in_paths
       <= line_breaks prompt
       <= 58 + 59 * files + in_paths.
Proof.
  intros files in_paths. subst files in_paths.
  assert (B : 58 + 3 * List.length changes
              + Py.sum (fun c => line_breaks (path c)) changes
              <= line_breaks (_build_prompt changes)
              <= 58 + 59 * List.length changes
                 + Py.sum (fun c => line_breaks (path c)) changes).
  { unfold _build_prompt. rewrite line_breaks_app, sum_list_sum.
    pose proof (line_breaks_add_files changes prompt_head) as B.
    assert (Eh : line_breaks prompt_head = 35) by (vm_compute; reflexivity).
    assert (Et : line_breaks prompt_tail = 23) by (vm_compute; reflexivity).
    lia. }
  split; [exact B|]. intros Leaf config prompt.
  unfold _build_prompt_openai.
  destruct (read_commit_setting config); [discriminate|].
  intro E; injection E as <-. exact B.
Qed.

End CommitPrompt.
